(** * Smart Bite: the meal-planning views (meals/views.py)

    A shallow embedding of the request handlers of [meals/views.py] and the
    properties of the stored meal plan that follow from them.

    Conventions of the embedding.
    - A JSON object the code treats as a struct is a record.  A member read
      with [obj['k']] is a plain field, a member read with [obj.get('k')]
      is an [option] field ([None] when the key is absent).
    - A Python dict whose iteration order matters is an association list in
      insertion order; a dict only looked up by key is a [gmap]; a Python
      set is a [gset].
    - The database table of [MealPlan] rows, the flash messages and the
      order of the table operations are threaded through a state and
      exception monad [M]; an exception leaves the state as it was when it
      was raised (the views run without a transaction).
    - Strings are byte strings; [lower] and [capitalize] act on the ASCII
      letters, as Python does on ASCII text.
    - A JSON number is an integer or a finite float; a float is the
      rational it denotes, so [round] and [int] are exact.
    - A date stands for its [%Y-%m-%d] text, and one clock (UTC, the
      default of the framework) gives the date of a timestamp both in the
      database lookups and in Python.
    - A CSV response is the list of the rows handed to [csv.writer].
    - Every view is wrapped in [login_required]; the embedding starts from
      an authenticated request. *)

From Stdlib Require Import ZArith QArith Qabs String Ascii List DecimalString DecimalZ.
From Stdlib Require OrderedTypeEx.
From stdpp Require Import gmap strings list sorting.

Local Open Scope string_scope.
Local Open Scope Z_scope.
Local Open Scope list_scope.

(** ** Python values *)

Module Py.

(** A JSON number: Python reads it as an [int] or as a [float]; a float is
    represented by the rational it denotes. *)
Inductive number :=
| PyInt (z : Z)
| PyFloat (q : Q).

Definition to_Q (x : number) : Q :=
  match x with
  | PyInt z => inject_Z z
  | PyFloat q => q
  end.

(** [round(x)] on a float rounds to the nearest integer, ties to even. *)
Definition round_half_even (q : Q) : Z :=
  let n := Qnum q in
  let d := Z.pos (Qden q) in
  let f := Z.div n d in
  match Z.compare (2 * Z.modulo n d) d with
  | Lt => f
  | Gt => f + 1
  | Eq => if Z.even f then f else f + 1
  end.

Definition round (x : number) : Z :=
  match x with
  | PyInt z => z
  | PyFloat q => round_half_even q
  end.

(** [int(x)] truncates a float towards zero. *)
Definition int (x : number) : Z :=
  match x with
  | PyInt z => z
  | PyFloat q => Z.quot (Qnum q) (Z.pos (Qden q))
  end.

Definition add (x : number) (k : Z) : number :=
  match x with
  | PyInt z => PyInt (z + k)
  | PyFloat q => PyFloat (Qplus q (inject_Z k))
  end.

Definition sub (x : number) (k : Z) : number :=
  match x with
  | PyInt z => PyInt (z - k)
  | PyFloat q => PyFloat (Qminus q (inject_Z k))
  end.

(** [str(n)] for an integer. *)
Definition str (z : Z) : string := NilZero.string_of_int (Z.to_int z).

Definition is_lower (c : ascii) : bool :=
  (97 <=? nat_of_ascii c)%nat && (nat_of_ascii c <=? 122)%nat.

Definition is_upper (c : ascii) : bool :=
  (65 <=? nat_of_ascii c)%nat && (nat_of_ascii c <=? 90)%nat.

Definition upper_char (c : ascii) : ascii :=
  if is_lower c then ascii_of_nat (nat_of_ascii c - 32) else c.

Definition lower_char (c : ascii) : ascii :=
  if is_upper c then ascii_of_nat (nat_of_ascii c + 32) else c.

(** [s.lower()] *)
Fixpoint lower (s : string) : string :=
  match s with
  | EmptyString => EmptyString
  | String c r => String (lower_char c) (lower r)
  end.

(** [s.capitalize()]: the first character upper-cased, the others
    lower-cased. *)
Definition capitalize (s : string) : string :=
  match s with
  | EmptyString => EmptyString
  | String c r => String (upper_char c) (lower r)
  end.

(** [needle in hay] for two strings. *)
Fixpoint contains (needle hay : string) : bool :=
  if String.prefix needle hay then true
  else match hay with
       | EmptyString => false
       | String _ r => contains needle r
       end.

(** [sep.join(parts)] *)
Definition join (sep : string) (parts : list string) : string :=
  String.concat sep parts.

(** [enumerate(l)] *)
Definition enumerate {A} (l : list A) : list (nat * A) := imap pair l.

(** [next((f(n) for n in l if p(n)), default)]: the generator is consumed
    up to its first element only. *)
Fixpoint next {A B} (p : A → bool) (f : A → B) (l : list A) (default : B) : B :=
  match l with
  | [] => default
  | n :: l' => if p n then f n else next p f l' default
  end.

(** An insertion-ordered dict as an association list. *)
Section dict.
Context {K V : Type} `{EqDecision K}.

(** [d[k] = v]: a key that is already present keeps its position. *)
Fixpoint setitem (k : K) (v : V) (d : list (K * V)) : list (K * V) :=
  match d with
  | [] => [(k, v)]
  | (k', v') :: d' =>
      if decide (k = k') then (k, v) :: d' else (k', v') :: setitem k v d'
  end.

(** [d[k].append(x)], [d[k]['n'] += 1]: update the value under [k]. *)
Fixpoint update (k : K) (f : V → V) (d : list (K * V)) : list (K * V) :=
  match d with
  | [] => []
  | (k', v') :: d' =>
      if decide (k = k') then (k', f v') :: d' else (k', v') :: update k f d'
  end.

(** [d.get(k)] *)
Fixpoint get (k : K) (d : list (K * V)) : option V :=
  match d with
  | [] => None
  | (k', v') :: d' => if decide (k = k') then Some v' else get k d'
  end.

(** [k in d] *)
Definition has_key (k : K) (d : list (K * V)) : bool := bool_decide (is_Some (get k d)).

(** [{k: v for ...}]: the pairs are stored one after the other. *)
Definition dict_of (pairs : list (K * V)) : list (K * V) :=
  foldl (λ d kv, setitem kv.1 kv.2 d) [] pairs.
End dict.

(** [bool(l)] for an optional list: absent and empty are both false. *)
Definition truthy {A} (o : option (list A)) : bool :=
  match o with
  | Some (_ :: _) => true
  | _ => false
  end.

(** [sum(l)] *)
Definition sum (l : list Z) : Z := foldl Z.add 0 l.

(** [sorted(l)] on strings: ascending in the order of the code points. *)
Definition sorted (l : list string) : list string :=
  merge_sort (λ a b, String.leb a b) l.

End Py.

Example capitalize_monday : Py.capitalize "monday" = "Monday".
Proof. reflexivity. Qed.

Example round_ties_to_even :
  Py.round (Py.PyFloat (5 # 2)) = 2 ∧ Py.round (Py.PyFloat (7 # 2)) = 4
  ∧ Py.round (Py.PyFloat (-5 # 2)) = -2 ∧ Py.round (Py.PyFloat (13 # 5)) = 3.
Proof. by vm_compute. Qed.

Example str_of_negative : Py.str (-412) = "-412".
Proof. reflexivity. Qed.

(** ** Payloads of the recipe service *)

(** One entry of [recipe['nutrition']['nutrients']]; the views read
    [n['name']] and [n['amount']]. *)
Record nutrient := {
  nutrient_name : string;
  nutrient_amount : Py.number;
}.

Record nutrition_info := {
  nutrients : option (list nutrient);
}.

Record ingredient := {
  ingredient_name : string;
}.

(** A recipe as returned by [recipes/informationBulk]. *)
Record recipe_info := {
  info_id : Z;
  info_title : option string;
  info_image : option string;
  info_nutrition : option nutrition_info;
  extendedIngredients : option (list ingredient);
}.

(** A recipe as returned by [recipes/complexSearch] and [recipes/random]. *)
Record recipe_hit := {
  hit_id : Z;
  hit_title : string;
  hit_image : option string;
  hit_nutrition : option nutrition_info;
  readyInMinutes : option Z;
  servings : option Z;
}.

(** The answer of [recipes/complexSearch] (key [results]) or of
    [recipes/random] (key [recipes]). *)
Record search_payload := {
  results : option (list recipe_hit);
  recipes : option (list recipe_hit);
}.

(** A meal of the generated plan; only its [id] is ever read. *)
Record meal_stub := {
  stub_id : Z;
}.

Record day_data := {
  meals : list meal_stub;
}.

(** The answer of [mealplanner/generate]; an empty object has no [week]. *)
Record plan_payload := {
  week : option (list (string * day_data));
}.

(** A value of the query-string dict handed to [requests.get]. *)
Inductive param :=
| PStr (s : string)
| PNum (x : Py.number)
| PBool (b : bool)
| PNone.

Definition params := list (string * param).

(** What [requests.get(...)], [raise_for_status()] and [response.json()]
    yield together: the decoded payload or a [RequestException]. *)
Inductive http_result (T : Type) :=
| HttpJson (payload : T)
| RequestException (why : string).
Arguments HttpJson {T} payload.
Arguments RequestException {T} why.

(** The remote service, one GET endpoint per field. *)
Record Spoonacular := {
  mealplanner_generate : params → http_result plan_payload;
  recipes_informationBulk : params → http_result (list recipe_info);
  recipes_complexSearch : params → http_result search_payload;
  recipes_random : params → http_result search_payload;
}.

Record Settings := {
  SPOONACULAR_API_KEY : string;
}.

(** [_fetch_from_spoonacular(endpoint, params)]: the key is added to the
    parameters and every request failure becomes [None]. *)
Definition _fetch_from_spoonacular {T} (settings : Settings)
    (endpoint : params → http_result T) (params : params) : option T :=
  let params := Py.setitem "apiKey" (PStr (SPOONACULAR_API_KEY settings)) params in
  match endpoint params with
  | HttpJson payload => Some payload
  | RequestException _ => None
  end.

(** ** The stored meal plan *)

Definition user_id := Z.

(** Seconds since the epoch, and days since the epoch. *)
Definition datetime := Z.
Definition date := Z.

(** [dt.date()], and the date that [dt.strftime('%Y-%m-%d')] prints: the
    printed text determines the date, so a dict keyed by that text is keyed
    by the date here.  One clock is used throughout (the framework's
    default time zone, UTC). *)
Definition date_of (t : datetime) : date := Z.div t 86400.

(** Modelled from the spec: meals/models.py, which declares the MealPlan
    model, is not among the sources.  The fields are the ones the views
    read and write: owning user, day label, meal slot, recipe name,
    external recipe identifier, calorie count, macro strings, image URL,
    eaten flag and eaten timestamp. *)
Record MealPlan := {
  pk : Z;
  user : user_id;
  day : string;
  meal_type : string;
  meal_name : string;
  spoonacular_id : option Z;
  calories : Z;
  protein : string;
  carbs : string;
  fats : string;
  image_url : option string;
  eaten : bool;
  eaten_at : option datetime;
}.

(** The column defaults of the model, for the fields that the views leave
    out when they create a row.  They are declared in meals/models.py,
    which is not among the sources, and are parameters here. *)
Record ModelDefaults := {
  default_protein : string;
  default_carbs : string;
  default_fats : string;
  default_eaten : bool;
  default_eaten_at : option datetime;
}.

Global Instance MealPlan_eq_dec : EqDecision MealPlan.
Proof. solve_decision. Defined.

(** The table operations, in the order they are issued. *)
Inductive db_op :=
| OpDelete (u : user_id)
| OpCreate (row : MealPlan)
| OpSave (row : MealPlan).

Inductive level := ERROR | SUCCESS.

Record state := {
  table : list MealPlan;
  next_pk : Z;
  log : list db_op;
  flashed : list (level * string);
}.

Inductive exn :=
| Http404
| IndexError
| TypeError
| AttributeError
| KeyError (key : string)
| JSONDecodeError (msg : string).

(** [str(e)] *)
Definition str_exn (e : exn) : string :=
  match e with
  | Http404 => "No MealPlan matches the given query."
  | IndexError => "list index out of range"
  | TypeError => "'NoneType' object is not subscriptable"
  | AttributeError => "'NoneType' object has no attribute 'strftime'"
  | KeyError k => "'" +:+ k +:+ "'"
  | JSONDecodeError msg => msg
  end.

Inductive result (A : Type) :=
| Ok (a : A)
| Raise (e : exn).
Arguments Ok {A} a.
Arguments Raise {A} e.

Definition M (A : Type) : Type := state → result A * state.

Global Instance M_ret : MRet M := λ A a s, (Ok a, s).
Global Instance M_bind : MBind M := λ A B f m s,
  match m s with
  | (Ok a, s') => f a s'
  | (Raise e, s') => (Raise e, s')
  end.

Definition raise {A} (e : exn) : M A := λ s, (Raise e, s).

(** [try: body except Exception as e: handler(e)] *)
Definition try_except {A} (body : M A) (handler : exn → M A) : M A := λ s,
  match body s with
  | (Ok a, s') => (Ok a, s')
  | (Raise e, s') => handler e s'
  end.

(** [d[k]] on an optional member: [KeyError] when the key is absent. *)
Definition getitem {A} (key : string) (member : option A) : M A :=
  match member with
  | Some a => mret a
  | None => raise (KeyError key)
  end.

(** [l[0]]; on [None] (an absent member reached through [.get]) a
    [TypeError]. *)
Definition first_item {A} (l : option (list A)) : M A :=
  match l with
  | Some (x :: _) => mret x
  | Some [] => raise IndexError
  | None => raise TypeError
  end.

(** [[f(x) for x in l]] where [f] may raise. *)
Fixpoint comprehension {A B} (f : A → M B) (l : list A) : M (list B) :=
  match l with
  | [] => mret []
  | x :: l' => y ← f x; ys ← comprehension f l'; mret (y :: ys)
  end.

(** A loop that updates a local variable [acc]. *)
Fixpoint for_fold {A S} (l : list A) (acc : S) (body : S → A → M S) : M S :=
  match l with
  | [] => mret acc
  | x :: l' => acc' ← body acc x; for_fold l' acc' body
  end.

(** [for x in l: body(x)] *)
Fixpoint for_each {A} (l : list A) (body : A → M ()) : M () :=
  match l with
  | [] => mret ()
  | x :: l' => body x ;; for_each l' body
  end.

Module objects.

(** [MealPlan.objects.filter(user=u)] *)
Definition filter_user (u : user_id) (t : list MealPlan) : list MealPlan :=
  filter (λ row, user row = u) t.

(** [MealPlan.objects.filter(user=u).delete()] *)
Definition filter_delete (u : user_id) : M () := λ s,
  (Ok (), {| table := filter (λ row, user row ≠ u) (table s);
             next_pk := next_pk s;
             log := log s ++ [OpDelete u];
             flashed := flashed s |}).

(** The keyword arguments of [MealPlan.objects.create(...)]; the macro
    strings are optional, [eaten] and [eaten_at] are never passed. *)
Record kwargs := {
  kw_user : user_id;
  kw_day : string;
  kw_meal_type : string;
  kw_meal_name : string;
  kw_spoonacular_id : option Z;
  kw_calories : Z;
  kw_protein : option string;
  kw_carbs : option string;
  kw_fats : option string;
  kw_image_url : option string;
}.

Definition new_row (defaults : ModelDefaults) (key : Z) (kw : kwargs) : MealPlan :=
  {| pk := key; user := kw_user kw; day := kw_day kw;
     meal_type := kw_meal_type kw; meal_name := kw_meal_name kw;
     spoonacular_id := kw_spoonacular_id kw; calories := kw_calories kw;
     protein := default (default_protein defaults) (kw_protein kw);
     carbs := default (default_carbs defaults) (kw_carbs kw);
     fats := default (default_fats defaults) (kw_fats kw);
     image_url := kw_image_url kw;
     eaten := default_eaten defaults; eaten_at := default_eaten_at defaults |}.

(** [MealPlan.objects.create(...)]: the row receives the next primary
    key and the column defaults for what is not passed. *)
Definition create (defaults : ModelDefaults) (kw : kwargs) : M MealPlan := λ s,
  let row := new_row defaults (next_pk s) kw in
  (Ok row, {| table := table s ++ [row];
              next_pk := next_pk s + 1;
              log := log s ++ [OpCreate row];
              flashed := flashed s |}).

(** The row that [MealPlan.objects.get(id=meal_id, user=u)] finds. *)
Definition get (meal_id : Z) (u : user_id) (t : list MealPlan) : option MealPlan :=
  List.find (λ row, bool_decide (pk row = meal_id ∧ user row = u)) t.

(** [get_object_or_404(MealPlan, id=meal_id, user=u)] *)
Definition get_or_404 (meal_id : Z) (u : user_id) : M MealPlan := λ s,
  match get meal_id u (table s) with
  | Some row => (Ok row, s)
  | None => (Raise Http404, s)
  end.

(** [meal.save()]: the stored row with the primary key of [meal] takes
    all the fields of [meal]. *)
Definition save (meal : MealPlan) : M () := λ s,
  (Ok (), {| table := (λ row, if bool_decide (pk row = pk meal) then meal else row) <$> table s;
             next_pk := next_pk s;
             log := log s ++ [OpSave meal];
             flashed := flashed s |}).

(** [MealPlan.objects.filter(...)] as a read in the monad. *)
Definition all : M (list MealPlan) := λ s, (Ok (table s), s).

End objects.

Module messages.

Definition add (l : level) (text : string) : M () := λ s,
  (Ok (), {| table := table s; next_pk := next_pk s; log := log s;
             flashed := flashed s ++ [(l, text)] |}).

Definition error := add ERROR.
Definition success := add SUCCESS.

End messages.

(** ** Requests and responses *)

(** The profile of the requesting user (its model lives in another
    application); [calculate_tdee] is the value [profile.calculate_tdee()]
    returns. *)
Record Profile := {
  goal : string;
  health_issues : option string;
  calculate_tdee : Py.number;
}.

(** The body of an add-meal request once decoded by [json.loads]. *)
Record add_meal_data := {
  data_day : option string;
  data_meal_type : option string;
  data_name : option string;
  data_recipe_id : option Z;
  data_calories : option Py.number;
  data_image : option string;
}.

(** An authenticated request: every view is wrapped in [login_required],
    so [request.user] is a logged-in user. *)
Record HttpRequest := {
  request_user : user_id;
  request_profile : Profile;
  method : string;
  GET : gmap string string;
  (** [json.loads(request.body)]: the decoded object, or the message of the
      decoding error. *)
  body_json : string + add_meal_data;
}.

(** A JSON value of a [JsonResponse]. *)
Inductive json :=
| JBool (b : bool)
| JInt (z : Z)
| JStr (s : string)
| JNull.

Definition json_of_option (o : option string) : json :=
  match o with
  | Some s => JStr s
  | None => JNull
  end.

Inductive cell :=
| CellStr (s : string)
| CellInt (z : Z)
| CellDate (d : date).

(** A recipe card of the discover page. *)
Record recipe_card := {
  card_id : Z;
  card_title : string;
  card_image : string;
  card_readyInMinutes : option Z;
  card_servings : option Z;
  card_calories : Z;
}.

(** One value of [daily_data]: [{'calories': c, 'meals': m}]. *)
Record day_totals := {
  total_calories : Z;
  total_meals : Z;
}.

Record progress_context := {
  dates_json : list date;
  calories_json : list Z;
  meal_counts_json : list Z;
  total_calories_week : Z;
  total_meals_week : Z;
  avg_daily_calories : Z;
  best_day : option date * Z;
}.

Inductive context :=
| MealPlanContext (grouped_meals : list (string * list MealPlan))
| DiscoverContext (cards : list recipe_card)
| GroceryContext (shopping_list : list string)
| ProgressContext (c : progress_context).

Inductive HttpResponse :=
| redirect (to : string)
| render (template : string) (ctx : context)
| JsonResponse (payload : list (string * json))
| CsvResponse (filename : string) (rows : list (list cell)).

(** ** The views *)

Section views.

Context (settings : Settings) (api : Spoonacular) (defaults : ModelDefaults).
(** [timezone.now()] *)
Context (now : datetime).

Definition fetch {T} (endpoint : params → http_result T) (p : params) : option T :=
  _fetch_from_spoonacular settings endpoint p.

(** [nutrition = recipe.get('nutrition', {}).get('nutrients', [])] *)
Definition nutrients_of (nutrition : option nutrition_info) : list nutrient :=
  default [] (default {| nutrients := None |} nutrition).(nutrients).

(** [next((n['amount'] for n in nutrition if n['name'] == name), dflt)] *)
Definition amount_of (name : string) (nutrition : list nutrient) (dflt : Py.number) : Py.number :=
  Py.next (λ n, String.eqb (nutrient_name n) name) nutrient_amount nutrition dflt.

(** Step 2 of [generate_meal_plan]: the loop that gathers the recipe ids
    and the meals of each day. *)
Definition gather (week : list (string * day_data)) : list Z * list (string * list meal_stub) :=
  foldl (λ '(recipe_ids, meal_structure) '(day, data),
           foldl (λ '(recipe_ids, meal_structure) meal,
                    (recipe_ids ++ [stub_id meal],
                     Py.update day (λ l, l ++ [meal]) meal_structure))
                 (recipe_ids, Py.setitem day [] meal_structure)
                 (meals data))
        ([], []) week.

(** [{recipe['id']: recipe for recipe in recipes_details}] *)
Definition details_map_of (recipes_details : list recipe_info) : gmap Z recipe_info :=
  foldl (λ m recipe, <[info_id recipe := recipe]> m) ∅ recipes_details.

Definition meal_types_map : gmap nat string :=
  {[ 0%nat := "Breakfast"; 1%nat := "Lunch"; 2%nat := "Dinner" ]}.

(** The query of step 1: the calorie target follows the goal of the
    profile, the diet its health issues. *)
Definition api_params_for (profile : Profile) : params :=
  let tdee := calculate_tdee profile in
  let calorie_target :=
    if String.eqb (goal profile) "lose" then Py.sub tdee 500
    else if String.eqb (goal profile) "gain" then Py.add tdee 500
    else tdee in
  let api_params := [("timeFrame", PStr "week"); ("targetCalories", PNum calorie_target)] in
  match health_issues profile with
  | Some (String _ _ as text) =>
      let issues := Py.lower text in
      if Py.contains "gluten" issues then Py.setitem "diet" (PStr "Gluten Free") api_params
      else if Py.contains "vegetarian" issues then Py.setitem "diet" (PStr "Vegetarian") api_params
      else if Py.contains "vegan" issues then Py.setitem "diet" (PStr "Vegan") api_params
      else api_params
  | _ => api_params
  end.

(** Step 1: the basic meal plan with recipe ids. *)
Definition plan_data_for (request : HttpRequest) : option plan_payload :=
  fetch (mealplanner_generate api) (api_params_for (request_profile request)).

(** Step 2: the details of all the recipes in one bulk call. *)
Definition recipes_details_for (recipe_ids : list Z) : option (list recipe_info) :=
  let ids_string := Py.join "," (Py.str <$> recipe_ids) in
  fetch (recipes_informationBulk api)
        [("ids", PStr ids_string); ("includeNutrition", PBool true)].

(** [meal_types_map.get(i, f"Meal {i+1}")] *)
Definition meal_type_for (i : nat) : string :=
  default ("Meal " +:+ Py.str (Z.of_nat i + 1)) (meal_types_map !! i).

(** Step 3, the body of the inner loop: the nutrition of [meal_details]
    and the arguments of [MealPlan.objects.create]. *)
Definition generated_meal (u : user_id) (day : string) (i : nat) (meal_details : recipe_info)
    : objects.kwargs :=
  let nutrition := nutrients_of (info_nutrition meal_details) in
  let calories := amount_of "Calories" nutrition (Py.PyInt 0) in
  let protein := amount_of "Protein" nutrition (Py.PyInt 0) in
  let carbs := amount_of "Carbohydrates" nutrition (Py.PyInt 0) in
  let fats := amount_of "Fat" nutrition (Py.PyInt 0) in
  {| objects.kw_user := u;
     objects.kw_day := Py.capitalize day;
     objects.kw_meal_type := meal_type_for i;
     objects.kw_meal_name := default "Generated Meal" (info_title meal_details);
     objects.kw_spoonacular_id := Some (info_id meal_details);
     objects.kw_calories := Py.round calories;
     objects.kw_protein := Some (Py.str (Py.round protein) +:+ "g");
     objects.kw_carbs := Some (Py.str (Py.round carbs) +:+ "g");
     objects.kw_fats := Some (Py.str (Py.round fats) +:+ "g");
     objects.kw_image_url := info_image meal_details |}.

Definition generate_meal_plan (request : HttpRequest) : M HttpResponse :=
  let plan_data := plan_data_for request in
  match plan_data ≫= week with
  | None =>
      messages.error "Could not generate a meal plan. The API may be unavailable or your daily quota exceeded." ;;
      mret (redirect "meal_plan")
  | Some week =>
      let '(recipe_ids, meal_structure) := gather week in
      let recipes_details := recipes_details_for recipe_ids in
      match recipes_details with
      | None | Some [] =>
          messages.error "Could not fetch nutritional details for the meal plan. Please try again." ;;
          mret (redirect "meal_plan")
      | Some recipes_details =>
          let details_map := details_map_of recipes_details in
          objects.filter_delete (request_user request) ;;
          for_each meal_structure (λ '(day, meals),
            for_each (Py.enumerate meals) (λ '(i, meal_stub),
              match details_map !! stub_id meal_stub with
              | Some meal_details =>
                  objects.create defaults
                    (generated_meal (request_user request) day i meal_details) ;;
                  mret ()
              | None => mret ()
              end)) ;;
          messages.success "Your new, personalized meal plan has been generated!" ;;
          mret (redirect "meal_plan")
      end
  end.

Definition pk_le (a b : MealPlan) : Prop := pk a ≤ pk b.
Global Instance pk_le_dec : RelDecision pk_le.
Proof. intros a b. unfold pk_le. apply _. Defined.

Definition order_by_pk (l : list MealPlan) : list MealPlan := merge_sort pk_le l.

Definition days_order : list string :=
  ["Monday"; "Tuesday"; "Wednesday"; "Thursday"; "Friday"; "Saturday"; "Sunday"].

Definition meal_plan_view (request : HttpRequest) : M HttpResponse :=
  all ← objects.all;
  let meals := order_by_pk (objects.filter_user (request_user request) all) in
  let grouped_meals : list (string * list MealPlan) := (λ day, (day, [])) <$> days_order in
  let grouped_meals :=
    foldl (λ grouped_meals meal,
             if Py.has_key (day meal) grouped_meals
             then Py.update (day meal) (λ l, l ++ [meal]) grouped_meals
             else grouped_meals)
          grouped_meals meals in
  mret (render "meals/meal_plan.html" (MealPlanContext grouped_meals)).

(** The search for a replacement: a recipe near the calories of the
    original meal, else a random recipe. *)
Definition replacement_for (original_meal : MealPlan) : option search_payload :=
  let response_data :=
    fetch (recipes_complexSearch api)
          [("number", PNum (Py.PyInt 1));
           ("targetCalories", PNum (Py.PyInt (calories original_meal)));
           ("addRecipeNutrition", PStr "true")] in
  if negb (Py.truthy (response_data ≫= results))
  then fetch (recipes_random api)
             [("number", PNum (Py.PyInt 1)); ("addRecipeNutrition", PStr "true")]
  else response_data.

(** [response_data.get('results', response_data.get('recipes'))] *)
Definition results_or_recipes (data : search_payload) : option (list recipe_hit) :=
  match results data with
  | Some l => Some l
  | None => recipes data
  end.

(** The four assignments of [replace_meal] to the loaded meal. *)
Definition swapped (original_meal : MealPlan) (new_recipe : recipe_hit) : MealPlan :=
  let nutrition_data := nutrients_of (hit_nutrition new_recipe) in
  let calories' :=
    amount_of "Calories" nutrition_data (Py.PyInt (calories original_meal)) in
  {| pk := pk original_meal; user := user original_meal;
     day := day original_meal; meal_type := meal_type original_meal;
     meal_name := hit_title new_recipe;
     spoonacular_id := Some (hit_id new_recipe);
     calories := Py.round calories';
     protein := protein original_meal; carbs := carbs original_meal;
     fats := fats original_meal;
     image_url := hit_image new_recipe;
     eaten := eaten original_meal; eaten_at := eaten_at original_meal |}.

Definition replace_meal (request : HttpRequest) (meal_id : Z) : M HttpResponse :=
  let failure :=
    JsonResponse [("success", JBool false);
                  ("error", JStr "Could not find a replacement meal. Please try again later or check your API quota.")] in
  if String.eqb (method request) "POST" then
    original_meal ← objects.get_or_404 meal_id (request_user request);
    let response_data := replacement_for original_meal in
    match response_data with
    | Some data =>
        if Py.truthy (results data) || Py.truthy (recipes data) then
          new_recipe ← first_item (results_or_recipes data);
          let original_meal := swapped original_meal new_recipe in
          objects.save original_meal ;;
          mret (JsonResponse [("success", JBool true);
                              ("meal_name", JStr (meal_name original_meal));
                              ("calories", JInt (calories original_meal));
                              ("image_url", json_of_option (image_url original_meal))])
        else mret failure
    | None => mret failure
    end
  else mret failure.

(** The two assignments of [toggle_meal_eaten] to the loaded meal. *)
Definition toggled (meal : MealPlan) : MealPlan :=
  let eaten' := negb (eaten meal) in
  {| pk := pk meal; user := user meal; day := day meal;
     meal_type := meal_type meal; meal_name := meal_name meal;
     spoonacular_id := spoonacular_id meal; calories := calories meal;
     protein := protein meal; carbs := carbs meal; fats := fats meal;
     image_url := image_url meal;
     eaten := eaten';
     eaten_at := if eaten' then Some now else None |}.

Definition toggle_meal_eaten (request : HttpRequest) (meal_id : Z) : M HttpResponse :=
  if String.eqb (method request) "POST" then
    meal ← objects.get_or_404 meal_id (request_user request);
    let meal := toggled meal in
    objects.save meal ;;
    mret (JsonResponse [("success", JBool true); ("eaten", JBool (eaten meal))])
  else mret (JsonResponse [("success", JBool false); ("error", JStr "Invalid request")]).

Definition discover_meals (request : HttpRequest) : M HttpResponse :=
  let profile := request_profile request in
  let health_issues :=
    match health_issues profile with
    | Some (String _ _ as text) => Py.lower text
    | _ => ""
    end in
  let diet := if Py.contains "diabetes" health_issues then PStr "low glycemic" else PNone in
  let intolerances : list string := [] in
  let intolerances :=
    if Py.contains "gluten" health_issues then intolerances ++ ["gluten"] else intolerances in
  let intolerances :=
    if Py.contains "dairy" health_issues || Py.contains "lactose" health_issues
    then intolerances ++ ["dairy"] else intolerances in
  let recipes_data :=
    fetch (recipes_complexSearch api)
          [("number", PNum (Py.PyInt 12)); ("addRecipeNutrition", PStr "true");
           ("cuisine", PStr "Indian"); ("diet", diet);
           ("intolerances", PStr (Py.join "," intolerances))] in
  recipes ←
    match recipes_data ≫= results with
    | Some hits =>
        for_fold hits [] (λ recipes recipe,
          let nutrition := nutrients_of (hit_nutrition recipe) in
          let calories := amount_of "Calories" nutrition (Py.PyInt 0) in
          image ← getitem "image" (hit_image recipe);
          mret (recipes ++ [{| card_id := hit_id recipe; card_title := hit_title recipe;
                               card_image := image;
                               card_readyInMinutes := readyInMinutes recipe;
                               card_servings := servings recipe;
                               card_calories := Py.round calories |}]))
    | None => mret []
    end;
  mret (render "meals/discover.html" (DiscoverContext recipes)).

(** [[meal.spoonacular_id for meal in meals if meal.spoonacular_id]] *)
Definition planned_recipe_ids (meals : list MealPlan) : list Z :=
  omap (λ meal, match spoonacular_id meal with
                | Some z => if decide (z = 0) then None else Some z
                | None => None
                end) meals.

(** The two nested loops of [grocery_list] that fill the set. *)
Definition add_ingredients (recipes_data : list recipe_info) (ingredient_list : gset string)
    : gset string :=
  foldl (λ ingredient_list recipe,
           foldl (λ ingredient_list ingredient,
                    ingredient_list ∪ {[ Py.capitalize (ingredient_name ingredient) ]})
                 ingredient_list
                 (default [] (extendedIngredients recipe)))
        ingredient_list recipes_data.

Definition grocery_list (request : HttpRequest) : M HttpResponse :=
  all ← objects.all;
  let meals := objects.filter_user (request_user request) all in
  let ingredient_list : gset string := ∅ in
  let recipe_ids := planned_recipe_ids meals in
  let ingredient_list :=
    match recipe_ids with
    | [] => ingredient_list
    | _ :: _ =>
        let ids_string := Py.join "," (Py.str <$> recipe_ids) in
        let recipes_data :=
          fetch (recipes_informationBulk api) [("ids", PStr ids_string)] in
        match recipes_data with
        | Some recipes_data => add_ingredients recipes_data ingredient_list
        | None => ingredient_list
        end
    end in
  if decide (GET request !! "format" = Some "csv") then
    let rows := [[CellStr "Ingredient"]] in
    let rows :=
      foldl (λ rows item, rows ++ [[CellStr item]]) rows
            (Py.sorted (elements ingredient_list)) in
    mret (CsvResponse "grocery_list.csv" rows)
  else
    mret (render "meals/grocery_list.html"
                 (GroceryContext (Py.sorted (elements ingredient_list)))).

(** The date that [eaten_at__date] compares and orders by. *)
Definition eaten_date (meal : MealPlan) : option date := date_of <$> eaten_at meal.

Definition eaten_date_le (a b : MealPlan) : Prop :=
  default 0 (eaten_date a) ≤ default 0 (eaten_date b).
Global Instance eaten_date_le_dec : RelDecision eaten_date_le.
Proof. intros a b. unfold eaten_date_le. apply _. Defined.

(** [eaten_at__date__gte=since]; a row without a timestamp does not pass
    the comparison. *)
Definition eaten_at__date__gte (since : date) (meal : MealPlan) : Prop :=
  match eaten_date meal with
  | Some d => since ≤ d
  | None => False
  end.
Global Instance eaten_at__date__gte_dec since meal : Decision (eaten_at__date__gte since meal).
Proof. unfold eaten_at__date__gte. destruct (eaten_date meal); apply _. Defined.

(** [MealPlan.objects.filter(user=u, eaten=True,
    eaten_at__date__gte=since).order_by('eaten_at__date')] *)
Definition eaten_since (u : user_id) (since : date) (t : list MealPlan) : list MealPlan :=
  merge_sort eaten_date_le
    (filter (λ meal, user meal = u ∧ eaten meal = true ∧ eaten_at__date__gte since meal) t).

(** The loop of [progress_view] over the eaten meals. *)
Definition tally (meals_last_7_days : list MealPlan) (daily_data : list (date * day_totals))
    : M (list (date * day_totals)) :=
  for_fold meals_last_7_days daily_data (λ daily_data meal,
    match eaten_at meal with
    | None => raise AttributeError
    | Some t =>
        let day_str := date_of t in
        if Py.has_key day_str daily_data
        then mret (Py.update day_str
                     (λ d, {| total_calories := total_calories d + calories meal;
                              total_meals := total_meals d + 1 |})
                     daily_data)
        else mret daily_data
    end).

(** The search for the day closest to the energy expenditure;
    [closest_diff] starts at infinity ([None]). *)
Definition closest_day (tdee : Py.number) (daily_data : list (date * day_totals))
    : option date * Z :=
  let '(_, best_day_date, best_day_calories) :=
    foldl (λ '(closest_diff, best_day_date, best_day_calories) '(day_str, data),
             if bool_decide (0 < total_calories data) then
               let diff := Qabs (Qminus (inject_Z (total_calories data)) (Py.to_Q tdee)) in
               let closer :=
                 match closest_diff with
                 | None => true
                 | Some c => negb (Qle_bool c diff)
                 end in
               if closer then (Some diff, Some day_str, total_calories data)
               else (closest_diff, best_day_date, best_day_calories)
             else (closest_diff, best_day_date, best_day_calories))
          (None, None, 0) daily_data in
  (best_day_date, best_day_calories).

Definition progress_view (request : HttpRequest) : M HttpResponse :=
  let today := date_of now in
  let seven_days_ago := today - 6 in
  all ← objects.all;
  let meals_last_7_days := eaten_since (request_user request) seven_days_ago all in
  let dates := (λ i, seven_days_ago + Z.of_nat i) <$> seq 0 7 in
  let daily_data :=
    Py.dict_of ((λ day, (day, {| total_calories := 0; total_meals := 0 |})) <$> dates) in
  daily_data ← tally meals_last_7_days daily_data;
  calories_data ←
    comprehension (λ d, data ← getitem (Py.str d) (Py.get d daily_data);
                        mret (total_calories data)) dates;
  meals_data ←
    comprehension (λ d, data ← getitem (Py.str d) (Py.get d daily_data);
                        mret (total_meals data)) dates;
  let total_calories_week := Py.sum calories_data in
  let total_meals_week := Py.sum meals_data in
  let days_tracked := Z.of_nat (length (filter (λ c, 0 < c) calories_data)) in
  let avg_daily_calories :=
    if bool_decide (0 < days_tracked) then total_calories_week `div` days_tracked else 0 in
  let '(best_day_date, best_day_calories) :=
    if bool_decide (0 < days_tracked)
    then closest_day (calculate_tdee (request_profile request)) daily_data
    else (None, 0) in
  if decide (GET request !! "format" = Some "csv") then
    let rows := [[CellStr "Date"; CellStr "Calories Consumed"; CellStr "Meals Eaten"]] in
    let rows :=
      foldl (λ rows '(date, data),
               rows ++ [[CellDate date; CellInt (total_calories data);
                         CellInt (total_meals data)]])
            rows daily_data in
    mret (CsvResponse "weekly_progress_report.csv" rows)
  else
    mret (render "meals/progress.html"
            (ProgressContext
               {| dates_json := dates;
                  calories_json := calories_data;
                  meal_counts_json := meals_data;
                  total_calories_week := total_calories_week;
                  total_meals_week := total_meals_week;
                  avg_daily_calories := avg_daily_calories;
                  best_day := (best_day_date, best_day_calories) |})).

Definition add_meal_to_plan (request : HttpRequest) : M HttpResponse :=
  if String.eqb (method request) "POST" then
    try_except
      (data ← match body_json request with
              | inl msg => raise (JSONDecodeError msg)
              | inr data => mret data
              end;
       day ← getitem "day" (data_day data);
       meal_type ← getitem "meal_type" (data_meal_type data);
       name ← getitem "name" (data_name data);
       recipe_id ← getitem "recipe_id" (data_recipe_id data);
       objects.create defaults
         {| objects.kw_user := request_user request;
            objects.kw_day := day;
            objects.kw_meal_type := meal_type;
            objects.kw_meal_name := name;
            objects.kw_spoonacular_id := Some recipe_id;
            objects.kw_calories := Py.int (default (Py.PyInt 0) (data_calories data));
            objects.kw_protein := None;
            objects.kw_carbs := None;
            objects.kw_fats := None;
            objects.kw_image_url := data_image data |} ;;
       mret (JsonResponse [("success", JBool true)]))
      (λ e, mret (JsonResponse [("success", JBool false); ("error", JStr (str_exn e))]))
  else mret (JsonResponse [("success", JBool false); ("error", JStr "Invalid request method")]).

End views.

(** * Vocabulary of the properties *)

(** The rows that a sequence of [create] calls adds, starting at primary
    key [key]. *)
Fixpoint created (defaults : ModelDefaults) (key : Z) (kws : list objects.kwargs) : list MealPlan :=
  match kws with
  | [] => []
  | kw :: kws' => objects.new_row defaults key kw :: created defaults (key + 1) kws'
  end.

Definition after_creates (defaults : ModelDefaults) (kws : list objects.kwargs) (s : state) : state :=
  let rows := created defaults (next_pk s) kws in
  {| table := table s ++ rows;
     next_pk := next_pk s + Z.of_nat (length kws);
     log := log s ++ (OpCreate <$> rows);
     flashed := flashed s |}.

(** The [create] arguments the two nested loops of step 3 produce. *)
Definition plan_kwargs (u : user_id) (details_map : gmap Z recipe_info)
    (meal_structure : list (string * list meal_stub)) : list objects.kwargs :=
  '(day, meals) ← meal_structure;
  '(i, meal_stub) ← Py.enumerate meals;
  match details_map !! stub_id meal_stub with
  | Some meal_details => [generated_meal u day i meal_details]
  | None => []
  end.

Definition error_plan : string :=
  "Could not generate a meal plan. The API may be unavailable or your daily quota exceeded.".
Definition error_details : string :=
  "Could not fetch nutritional details for the meal plan. Please try again.".
Definition success_generated : string :=
  "Your new, personalized meal plan has been generated!".

Definition flash (l : level) (text : string) (s : state) : state :=
  {| table := table s; next_pk := next_pk s; log := log s;
     flashed := flashed s ++ [(l, text)] |}.

Definition after_delete (u : user_id) (s : state) : state :=
  {| table := filter (λ row, user row ≠ u) (table s); next_pk := next_pk s;
     log := log s ++ [OpDelete u]; flashed := flashed s |}.

(** ** Sample data *)

Module Sample.
Definition settings : Settings := {| SPOONACULAR_API_KEY := "secret" |}.
Definition defaults : ModelDefaults :=
  {| default_protein := ""; default_carbs := ""; default_fats := "";
     default_eaten := false; default_eaten_at := None |}.
Definition profile : Profile :=
  {| goal := "lose"; health_issues := Some "Gluten"; calculate_tdee := Py.PyInt 2000 |}.
Definition request (verb : string) (query : gmap string string) : HttpRequest :=
  {| request_user := 7; request_profile := profile; method := verb; GET := query;
     body_json := inl "Expecting value: line 1 column 1 (char 0)" |}.

Definition soup_nutrition : nutrition_info :=
  {| nutrients := Some [ {| nutrient_name := "Calories"; nutrient_amount := Py.PyFloat (5 # 2) |};
                         {| nutrient_name := "Fat"; nutrient_amount := Py.PyFloat (7 # 2) |};
                         {| nutrient_name := "Calories"; nutrient_amount := Py.PyInt 900 |} ] |}.
Definition soup : recipe_info :=
  {| info_id := 11; info_title := Some "Soup"; info_image := None;
     info_nutrition := Some soup_nutrition;
     extendedIngredients := Some [ {| ingredient_name := "tomato" |};
                                   {| ingredient_name := "SALT" |};
                                   {| ingredient_name := "Tomato" |} ] |}.

(** A plan of one day and four meals; the key is not in lower case. *)
Definition plan : plan_payload :=
  {| week := Some [("mONDAY", {| meals := [ {| stub_id := 10 |}; {| stub_id := 11 |};
                                            {| stub_id := 12 |}; {| stub_id := 11 |} ] |})] |}.

Definition failing {T} : params → http_result T := λ _, RequestException "402 Payment Required".

(** The service answers both calls of [generate_meal_plan]. *)
Definition api : Spoonacular :=
  {| mealplanner_generate := λ _, HttpJson plan;
     recipes_informationBulk := λ _, HttpJson [soup];
     recipes_complexSearch := failing;
     recipes_random := failing |}.

(** The bulk call answers with an empty list. *)
Definition api_empty_details : Spoonacular :=
  {| mealplanner_generate := λ _, HttpJson plan;
     recipes_informationBulk := λ _, HttpJson [];
     recipes_complexSearch := failing;
     recipes_random := failing |}.

(** The bulk call fails. *)
Definition api_no_details : Spoonacular :=
  {| mealplanner_generate := λ _, HttpJson plan;
     recipes_informationBulk := failing;
     recipes_complexSearch := failing;
     recipes_random := failing |}.

(** A replacement recipe with no "Calories" entry. *)
Definition paneer : recipe_hit :=
  {| hit_id := 21; hit_title := "Paneer"; hit_image := Some "paneer.jpg";
     hit_nutrition := Some {| nutrients := Some [ {| nutrient_name := "Protein";
                                                     nutrient_amount := Py.PyFloat (92 # 5) |} ] |};
     readyInMinutes := Some 30; servings := None |}.

(** The search finds a replacement. *)
Definition api_search : Spoonacular :=
  {| mealplanner_generate := failing;
     recipes_informationBulk := failing;
     recipes_complexSearch := λ _, HttpJson {| results := Some [paneer]; recipes := None |};
     recipes_random := failing |}.

Definition row (key : Z) (owner : user_id) (was_eaten : option datetime) (kcal : Z) : MealPlan :=
  {| pk := key; user := owner; day := "Monday"; meal_type := "Lunch";
     meal_name := "Dal"; spoonacular_id := Some 5; calories := kcal;
     protein := "20g"; carbs := "50g"; fats := "10g"; image_url := None;
     eaten := bool_decide (is_Some was_eaten); eaten_at := was_eaten |}.

Definition db : state :=
  {| table := [row 1 7 None 400; row 2 8 None 500; row 3 7 (Some 100000) 700];
     next_pk := 4; log := []; flashed := [] |}.
End Sample.

(** The rows a successful run adds. *)
Definition generated_rows (defaults : ModelDefaults) (request : HttpRequest) (s : state)
    (w : list (string * day_data)) (recipes_details : list recipe_info) : list MealPlan :=
  created defaults (next_pk s)
    (plan_kwargs (request_user request) (details_map_of recipes_details) (gather w).2).

(** What "the plan replaces the rows of the user" means for a run from [s]:
    the handler redirects; it issues one delete for the user and then only
    creates; the table is the old one without the rows of the user,
    followed by the new rows; the rows of the other users are the same. *)
Definition replaces_prior_rows (out : result HttpResponse * state) (u : user_id) (s : state) : Prop :=
  ∃ rows,
    out.1 = Ok (redirect "meal_plan")
    ∧ log out.2 = log s ++ OpDelete u :: (OpCreate <$> rows)
    ∧ table out.2 = filter (λ row, user row ≠ u) (table s) ++ rows
    ∧ Forall (λ row, user row = u ∧ next_pk s ≤ pk row) rows
    ∧ filter (λ row, user row ≠ u) (table out.2) = filter (λ row, user row ≠ u) (table s)
    ∧ filter (λ row, user row = u) (table out.2) = rows.




Definition after_save (meal : MealPlan) (s : state) : state :=
  {| table := (λ row, if bool_decide (pk row = pk meal) then meal else row) <$> table s;
     next_pk := next_pk s;
     log := log s ++ [OpSave meal];
     flashed := flashed s |}.

(** The failure payload [{'success': False, 'error': text}]. *)
Definition failure_json (text : string) : HttpResponse :=
  JsonResponse [("success", JBool false); ("error", JStr text)].

Definition swap_json (meal : MealPlan) : HttpResponse :=
  JsonResponse [("success", JBool true);
                ("meal_name", JStr (meal_name meal));
                ("calories", JInt (calories meal));
                ("image_url", json_of_option (image_url meal))].

Definition toggle_json (meal : MealPlan) : HttpResponse :=
  JsonResponse [("success", JBool true); ("eaten", JBool (eaten meal))].

Definition no_replacement : string :=
  "Could not find a replacement meal. Please try again later or check your API quota.".

(** The arguments of [MealPlan.objects.create] in [add_meal_to_plan], when
    the body holds the four required members. *)
Definition added_meal (u : user_id) (data : add_meal_data) : exn + objects.kwargs :=
  match data_day data, data_meal_type data, data_name data, data_recipe_id data with
  | Some d, Some t, Some n, Some r =>
      inr {| objects.kw_user := u; objects.kw_day := d; objects.kw_meal_type := t;
             objects.kw_meal_name := n; objects.kw_spoonacular_id := Some r;
             objects.kw_calories := Py.int (default (Py.PyInt 0) (data_calories data));
             objects.kw_protein := None; objects.kw_carbs := None; objects.kw_fats := None;
             objects.kw_image_url := data_image data |}
  | None, _, _, _ => inl (KeyError "day")
  | _, None, _, _ => inl (KeyError "meal_type")
  | _, _, None, _ => inl (KeyError "name")
  | _, _, _, None => inl (KeyError "recipe_id")
  end.


(** A computation that leaves the state alone, whether it returns or
    raises. *)
Definition read_only {A} (m : M A) : Prop := ∀ s, (m s).2 = s.

(** The views of [meals/views.py]. *)
Inductive view :=
| GenerateMealPlan
| MealPlanView
| ReplaceMeal (meal_id : Z)
| ToggleMealEaten (meal_id : Z)
| DiscoverMeals
| GroceryList
| ProgressView
| AddMealToPlan.

Definition call (settings : Settings) (api : Spoonacular) (defaults : ModelDefaults)
    (now : datetime) (v : view) (request : HttpRequest) : M HttpResponse :=
  match v with
  | GenerateMealPlan => generate_meal_plan settings api defaults request
  | MealPlanView => meal_plan_view request
  | ReplaceMeal meal_id => replace_meal settings api request meal_id
  | ToggleMealEaten meal_id => toggle_meal_eaten now request meal_id
  | DiscoverMeals => discover_meals settings api request
  | GroceryList => grocery_list settings api request
  | ProgressView => progress_view now request
  | AddMealToPlan => add_meal_to_plan defaults request
  end.

(** A stored meal has a timestamp exactly when it is marked eaten. *)
Definition eaten_consistent (row : MealPlan) : Prop :=
  is_Some (eaten_at row) ↔ eaten row = true.

(** [row'] keeps the eaten flag and timestamp of a row of [t] with the
    same primary key, or has the flag and timestamp of a new row. *)
Definition eaten_kept_or_default (defaults : ModelDefaults) (t : list MealPlan)
    (row' : MealPlan) : Prop :=
  (∃ row, row ∈ t ∧ pk row = pk row' ∧ eaten row' = eaten row ∧ eaten_at row' = eaten_at row)
  ∨ (eaten row' = default_eaten defaults ∧ eaten_at row' = default_eaten_at defaults).

(** The recipes the service returns for the planned meals of the user. *)
Definition planned_recipes (settings : Settings) (api : Spoonacular) (u : user_id)
    (t : list MealPlan) : list recipe_info :=
  match planned_recipe_ids (objects.filter_user u t) with
  | [] => []
  | recipe_ids =>
      default [] (fetch settings (recipes_informationBulk api)
                        [("ids", PStr (Py.join "," (Py.str <$> recipe_ids)))])
  end.

(** The meals of user [u] that are marked eaten and whose timestamp falls
    on date [d], with their calories and their number. *)
Definition eaten_on (u : user_id) (d : date) (t : list MealPlan) : list MealPlan :=
  filter (λ meal, user meal = u ∧ eaten meal = true ∧ eaten_date meal = Some d) t.

Definition calories_on (u : user_id) (d : date) (t : list MealPlan) : Z :=
  Py.sum (calories <$> eaten_on u d t).

Definition meals_on (u : user_id) (d : date) (t : list MealPlan) : Z :=
  Z.of_nat (length (eaten_on u d t)).

(** The seven dates that end today. *)
Definition last_7_days (now : datetime) : list date :=
  let today := date_of now in
  [today - 6; today - 5; today - 4; today - 3; today - 2; today - 1; today].

Definition daily_totals (u : user_id) (t : list MealPlan) (dates : list date)
    : list (date * day_totals) :=
  (λ d, (d, {| total_calories := calories_on u d t; total_meals := meals_on u d t |})) <$> dates.

(** What the loop adds to the totals of date [d] for one meal. *)
Definition bump (meal : MealPlan) (d : date) (tot : day_totals) : day_totals :=
  if decide (eaten_date meal = Some d)
  then {| total_calories := total_calories tot + calories meal;
          total_meals := total_meals tot + 1 |}
  else tot.

(** The number of dates with a positive calorie total. *)
Definition days_tracked (calories_data : list Z) : Z :=
  Z.of_nat (length (filter (λ c, 0 < c) calories_data)).

(** ** Vocabulary of the further properties *)

(** The table is well formed: primary keys are distinct and below the next
    key to hand out. *)
Definition db_wf (s : state) : Prop :=
  NoDup (pk <$> table s) ∧ Forall (λ row, pk row < next_pk s) (table s).

(** The meals of user [u] stored under the day label [d]. *)
Definition meals_of_day (u : user_id) (d : string) (t : list MealPlan) : list MealPlan :=
  filter (λ meal, user meal = u ∧ day meal = d) t.

(** The groups of the plan page of user [u] for the table [t]. *)
Definition plan_page (u : user_id) (t : list MealPlan) : list (string * list MealPlan) :=
  (λ d, (d, filter (λ meal, day meal = d) (order_by_pk (objects.filter_user u t))))
    <$> days_order.

(** ** Further sample data *)

Module Demo.
(** The decoded body of an add-meal request. *)
Definition chai (label : string) : add_meal_data :=
  {| data_day := Some label; data_meal_type := Some "Snack"; data_name := Some "Chai";
     data_recipe_id := Some 99; data_calories := Some (Py.PyFloat (-27 # 10));
     data_image := None |}.

Definition add_request (label : string) : HttpRequest :=
  {| request_user := 7; request_profile := Sample.profile; method := "POST"; GET := ∅;
     body_json := inr (chai label) |}.

(** The sample user with the health issues written in capitals. *)
Definition shouting : HttpRequest :=
  {| request_user := 7;
     request_profile :=
       {| goal := "lose"; health_issues := Some "GLUTEN"; calculate_tdee := Py.PyInt 2000 |};
     method := "GET"; GET := ∅;
     body_json := inl "Expecting value: line 1 column 1 (char 0)" |}.
End Demo.

(** The health issues of the profile in lower case, as the views compare
    them; the empty text when there are none. *)
Definition lowered_issues_of (profile : Profile) : string :=
  default "" (Py.lower <$> health_issues profile).



(** The card of [discover_meals] agrees with the search hit it was made
    from. *)
Definition shows (recipe : recipe_hit) (card : recipe_card) : Prop :=
  card_id card = hit_id recipe
  ∧ card_title card = hit_title recipe
  ∧ hit_image recipe = Some (card_image card)
  ∧ card_readyInMinutes card = readyInMinutes recipe
  ∧ card_servings card = servings recipe
  ∧ card_calories card
    = Py.round (amount_of "Calories" (nutrients_of (hit_nutrition recipe)) (Py.PyInt 0))
  ∧ (Qabs (inject_Z (card_calories card)
           - Py.to_Q (amount_of "Calories" (nutrients_of (hit_nutrition recipe)) (Py.PyInt 0)))
     <= 1 # 2)%Q.

(** The hits of a search answer; none when the request failed or the
    answer has no [results]. *)
Definition hits_of (answer : http_result search_payload) : list recipe_hit :=
  match answer with
  | HttpJson payload => default [] (results payload)
  | RequestException _ => []
  end.

(** The timestamp of the meal falls on one of the seven dates that end
    today. *)
Definition in_week (now : datetime) (meal : MealPlan) : Prop :=
  match eaten_date meal with
  | Some d => date_of now - 6 ≤ d ≤ date_of now
  | None => False
  end.
Global Instance in_week_dec now meal : Decision (in_week now meal).
Proof. unfold in_week. destruct (eaten_date meal); apply _. Defined.

(** The meals of user [u] that are marked eaten with a timestamp in the
    week. *)
Definition eaten_this_week (u : user_id) (now : datetime) (t : list MealPlan) : list MealPlan :=
  filter (λ meal, user meal = u ∧ eaten meal = true ∧ in_week now meal) t.

(** The answers of the service to the two requests of [replace_meal]. *)
Definition search_answer (settings : Settings) (api : Spoonacular) (original_meal : MealPlan)
    : http_result search_payload :=
  recipes_complexSearch api
    [("number", PNum (Py.PyInt 1));
     ("targetCalories", PNum (Py.PyInt (calories original_meal)));
     ("addRecipeNutrition", PStr "true");
     ("apiKey", PStr (SPOONACULAR_API_KEY settings))].

Definition random_answer (settings : Settings) (api : Spoonacular) : http_result search_payload :=
  recipes_random api
    [("number", PNum (Py.PyInt 1)); ("addRecipeNutrition", PStr "true");
     ("apiKey", PStr (SPOONACULAR_API_KEY settings))].

(** The swap of [original_meal] for [new_recipe] succeeded. *)
Definition swap_done (original_meal : MealPlan) (new_recipe : recipe_hit) (s : state)
    : result HttpResponse * state :=
  (Ok (swap_json (swapped original_meal new_recipe)),
   after_save (swapped original_meal new_recipe) s).

(** * Properties *)

(** ** Reasoning about the monad *)

Ltac run := unfold mbind, M_bind, mret, M_ret, raise; simpl.

Lemma run_bind {A B} (m : M A) (f : A → M B) s :
  (m ≫= f) s = match m s with
               | (Ok a, s') => f a s'
               | (Raise e, s') => (Raise e, s')
               end.
Proof. reflexivity. Qed.

Lemma run_ret {A} (a : A) (s : state) : (mret a : M A) s = (Ok a, s).
Proof. reflexivity. Qed.

Lemma if_mret {A} (c : bool) (a b : A) :
  (if c then mret a else mret b : M A) = mret (if c then a else b).
Proof. by destruct c. Qed.

Lemma for_each_app {A} (l1 l2 : list A) (body : A → M ()) s :
  for_each (l1 ++ l2) body s = (for_each l1 body ;; for_each l2 body) s.
Proof.
  revert s. induction l1 as [|x l1 IH]; intros s; simpl.
  - reflexivity.
  - run. destruct (body x s) as [[[]|e] s1]; [apply IH | reflexivity].
Qed.

Lemma for_each_bind {A B} (l : list A) (f : A → list B) (body : B → M ()) s :
  for_each l (λ x, for_each (f x) body) s = for_each (l ≫= f) body s.
Proof.
  revert s. induction l as [|x l IH]; intros s; simpl.
  - reflexivity.
  - rewrite for_each_app. run.
    destruct (for_each (f x) body s) as [[[]|e] s1]; [apply IH | reflexivity].
Qed.

Lemma for_each_ext {A} (l : list A) (body1 body2 : A → M ()) s :
  (∀ x s, x ∈ l → body1 x s = body2 x s) →
  for_each l body1 s = for_each l body2 s.
Proof.
  revert s. induction l as [|x l IH]; intros s Hext; simpl; [reflexivity|].
  run. rewrite Hext by left.
  destruct (body2 x s) as [[[]|e] s1]; [|reflexivity].
  apply IH. intros y s' Hy. apply Hext. by right.
Qed.

Lemma for_each_create defaults (kws : list objects.kwargs) s :
  for_each kws (λ kw, objects.create defaults kw ;; mret ()) s
  = (Ok (), after_creates defaults kws s).
Proof.
  revert s. induction kws as [|kw kws IH]; intros s.
  - destruct s. unfold after_creates. simpl. run.
    by rewrite !app_nil_r, Z.add_0_r.
  - simpl. run. rewrite IH. unfold after_creates. simpl.
    rewrite <- !app_assoc. simpl. do 2 f_equal. lia.
Qed.

(** ** The run of [generate_meal_plan] *)

Lemma step3_loops defaults u details_map meal_structure s :
  for_each meal_structure (λ '(day, meals),
    for_each (Py.enumerate meals) (λ '(i, meal_stub),
      match details_map !! stub_id meal_stub with
      | Some meal_details =>
          objects.create defaults (generated_meal u day i meal_details) ;; mret ()
      | None => mret ()
      end)) s
  = (Ok (), after_creates defaults (plan_kwargs u details_map meal_structure) s).
Proof.
  rewrite <- for_each_create. unfold plan_kwargs. rewrite <- for_each_bind.
  apply for_each_ext. intros [day meals] s1 _.
  rewrite <- for_each_bind.
  apply for_each_ext. intros [i meal_stub] s2 _.
  destruct (details_map !! stub_id meal_stub); simpl; [|reflexivity].
  run. reflexivity.
Qed.

Section generate.
Context (settings : Settings) (api : Spoonacular) (defaults : ModelDefaults).
Implicit Types (request : HttpRequest) (s : state).

Lemma generate_no_plan request s :
  plan_data_for settings api request ≫= week = None →
  generate_meal_plan settings api defaults request s
  = (Ok (redirect "meal_plan"), flash ERROR error_plan s).
Proof. intros H. unfold generate_meal_plan. rewrite H. reflexivity. Qed.

Lemma generate_no_details request s w :
  plan_data_for settings api request ≫= week = Some w →
  recipes_details_for settings api (gather w).1 = None
  ∨ recipes_details_for settings api (gather w).1 = Some [] →
  generate_meal_plan settings api defaults request s
  = (Ok (redirect "meal_plan"), flash ERROR error_details s).
Proof.
  intros Hw Hd. unfold generate_meal_plan. rewrite Hw.
  destruct (gather w) as [recipe_ids meal_structure]. simpl in Hd.
  destruct Hd as [-> | ->]; reflexivity.
Qed.

Lemma generate_success request s w recipe recipes_details :
  plan_data_for settings api request ≫= week = Some w →
  recipes_details_for settings api (gather w).1 = Some (recipe :: recipes_details) →
  generate_meal_plan settings api defaults request s
  = (Ok (redirect "meal_plan"),
     flash SUCCESS success_generated
       (after_creates defaults
          (plan_kwargs (request_user request)
             (details_map_of (recipe :: recipes_details)) (gather w).2)
          (after_delete (request_user request) s))).
Proof.
  intros Hw Hd. unfold generate_meal_plan. rewrite Hw.
  destruct (gather w) as [recipe_ids meal_structure]. simpl in Hd |- *.
  rewrite Hd. rewrite run_bind.
  change (objects.filter_delete (request_user request) s)
    with (Ok (), after_delete (request_user request) s).
  cbv iota beta. rewrite run_bind, step3_loops. reflexivity.
Qed.
End generate.

(** ** Facts about the pieces of step 2 and step 3 *)

Lemma elem_of_created defaults key kws row :
  row ∈ created defaults key kws
  ↔ ∃ (j : nat) kw, kws !! j = Some kw ∧ row = objects.new_row defaults (key + Z.of_nat j) kw.
Proof.
  revert key. induction kws as [|kw kws IH]; intros key; simpl.
  - split; [by intros ?%elem_of_nil | by intros (j & kw & ? & _)].
  - rewrite elem_of_cons, IH. split.
    + intros [-> | (j & kw' & Hj & ->)].
      * exists 0%nat, kw. split; [done | f_equal; lia].
      * exists (S j), kw'. split; [done | f_equal; lia].
    + intros ([|j] & kw' & Hj & ->); simpl in Hj.
      * left. injection Hj as ->. f_equal. lia.
      * right. exists j, kw'. split; [done | f_equal; lia].
Qed.

Lemma length_created defaults key kws :
  length (created defaults key kws) = length kws.
Proof. revert key. induction kws; intros; simpl; auto. Qed.

Lemma elem_of_enumerate {A} (l : list A) i x :
  (i, x) ∈ Py.enumerate l ↔ l !! i = Some x.
Proof.
  unfold Py.enumerate. rewrite elem_of_lookup_imap. split.
  - intros (j & y & [= -> ->] & H). done.
  - intros H. by exists i, x.
Qed.

Lemma elem_of_plan_kwargs u details_map meal_structure kw :
  kw ∈ plan_kwargs u details_map meal_structure
  ↔ ∃ day meals (i : nat) meal_stub meal_details,
      (day, meals) ∈ meal_structure ∧ meals !! i = Some meal_stub
      ∧ details_map !! stub_id meal_stub = Some meal_details
      ∧ kw = generated_meal u day i meal_details.
Proof.
  unfold plan_kwargs. rewrite list_elem_of_bind. split.
  - intros ([day meals] & Hkw & Hday). apply list_elem_of_bind in Hkw.
    destruct Hkw as ([i meal_stub] & Hkw & Hi). apply elem_of_enumerate in Hi.
    destruct (details_map !! stub_id meal_stub) as [meal_details|] eqn:Hd.
    + apply list_elem_of_singleton in Hkw. by exists day, meals, i, meal_stub, meal_details.
    + by apply elem_of_nil in Hkw.
  - intros (day & meals & i & meal_stub & meal_details & Hday & Hi & Hd & ->).
    exists (day, meals). split; [|done]. apply list_elem_of_bind.
    exists (i, meal_stub). split; [|by apply elem_of_enumerate].
    rewrite Hd. by apply list_elem_of_singleton.
Qed.

(** The dict comprehension keeps, for each id, the last recipe carrying it. *)
Lemma details_map_of_lookup recipes_details k :
  details_map_of recipes_details !! k
  = last (filter (λ recipe, info_id recipe = k) recipes_details).
Proof.
  unfold details_map_of.
  assert (∀ m : gmap Z recipe_info,
            foldl (λ m recipe, <[info_id recipe := recipe]> m) m recipes_details !! k
            = match last (filter (λ recipe, info_id recipe = k) recipes_details) with
              | Some d => Some d
              | None => m !! k
              end) as H.
  { induction recipes_details as [|r l IH]; intros m; simpl; [done|].
    rewrite IH. rewrite filter_cons. case_decide as Hk.
    - rewrite last_cons. destruct (last _); [done|]. subst k. by rewrite lookup_insert_eq.
    - destruct (last _); [done|]. by rewrite lookup_insert_ne. }
  rewrite H. destruct (last _); [done | apply lookup_empty].
Qed.

Lemma details_map_of_Some recipes_details k meal_details :
  details_map_of recipes_details !! k = Some meal_details →
  meal_details ∈ recipes_details ∧ info_id meal_details = k.
Proof.
  rewrite details_map_of_lookup. intros H%last_Some_elem_of.
  by apply list_elem_of_filter in H as [? ?].
Qed.

Lemma details_map_of_None recipes_details k :
  details_map_of recipes_details !! k = None
  ↔ ∀ recipe, recipe ∈ recipes_details → info_id recipe ≠ k.
Proof.
  rewrite details_map_of_lookup, last_None. split.
  - intros H recipe Hin Hk.
    assert (recipe ∈ filter (λ recipe, info_id recipe = k) recipes_details) as Hf
      by by apply list_elem_of_filter.
    rewrite H in Hf. by apply elem_of_nil in Hf.
  - intros H. destruct (filter _ _) as [|r l] eqn:Hf; [done|].
    assert (r ∈ filter (λ recipe, info_id recipe = k) recipes_details) as Hr
      by (rewrite Hf; left).
    apply list_elem_of_filter in Hr as [? ?]. naive_solver.
Qed.

(** ** The ordered dict *)

Section dict_facts.
Context {K V : Type} `{EqDecision K}.
Implicit Types (d : list (K * V)) (k : K).

Lemma update_ext k (f g : V → V) d :
  (∀ v, f v = g v) → Py.update k f d = Py.update k g d.
Proof.
  intros Hfg. induction d as [|[k' v'] d IH]; simpl; [done|].
  case_decide; by rewrite ?Hfg, ?IH.
Qed.

Lemma update_update k (f g : V → V) d :
  Py.update k f (Py.update k g d) = Py.update k (λ v, f (g v)) d.
Proof.
  induction d as [|[k' v'] d IH]; simpl; [done|].
  destruct (decide (k = k')) as [Hk|Hk]; simpl.
  - by rewrite decide_True.
  - by rewrite decide_False, IH.
Qed.

Lemma update_id k (f : V → V) d : (∀ v, f v = v) → Py.update k f d = d.
Proof.
  intros Hf. induction d as [|[k' v'] d IH]; simpl; [done|].
  case_decide; by rewrite ?Hf, ?IH.
Qed.

Lemma update_fst k (f : V → V) d : (Py.update k f d).*1 = d.*1.
Proof.
  induction d as [|[k' v'] d IH]; simpl; [done|].
  case_decide; csimpl; [done | by f_equal].
Qed.

Lemma setitem_fresh k v d : k ∉ d.*1 → Py.setitem k v d = d ++ [(k, v)].
Proof.
  induction d as [|[k' v'] d IH]; simpl; [done|].
  rewrite not_elem_of_cons. intros [Hne Hk].
  case_decide; [done|]. by rewrite IH.
Qed.

Lemma update_fresh_last k (f : V → V) v d :
  k ∉ d.*1 → Py.update k f (d ++ [(k, v)]) = d ++ [(k, f v)].
Proof.
  induction d as [|[k' v'] d IH]; simpl.
  - intros _. by rewrite decide_True.
  - rewrite not_elem_of_cons. intros [Hne Hk].
    case_decide; [done|]. by rewrite IH.
Qed.

Lemma update_absent k (f : V → V) d : k ∉ d.*1 → Py.update k f d = d.
Proof.
  induction d as [|[k' v'] d IH]; simpl; [done|].
  rewrite not_elem_of_cons. intros [Hne Hk].
  case_decide; [done|]. by rewrite IH.
Qed.

Lemma get_Some_elem_of k v d : Py.get k d = Some v → (k, v) ∈ d.
Proof.
  induction d as [|[k' v'] d IH]; simpl; [done|].
  case_decide as Hk.
  - intros [= ->]. subst. left.
  - intros ?. right. auto.
Qed.

Lemma get_None k d : Py.get k d = None ↔ k ∉ d.*1.
Proof.
  induction d as [|[k' v'] d IH]; simpl.
  - split; [intros _; apply not_elem_of_nil | done].
  - rewrite not_elem_of_cons. case_decide as Hk.
    + split; [done | by intros [? _]].
    + rewrite IH. split; [by intros ? | by intros [_ ?]].
Qed.

Lemma has_key_elem_of k d : Py.has_key k d = true ↔ k ∈ d.*1.
Proof.
  unfold Py.has_key. rewrite bool_decide_eq_true.
  destruct (Py.get k d) eqn:Hg.
  - split; [intros _ | by eauto].
    destruct (decide (k ∈ d.*1)) as [|Hn]; [done|]. apply get_None in Hn. congruence.
  - apply get_None in Hg. split; [by intros [? ?] | done].
Qed.

Lemma dict_of_NoDup (pairs : list (K * V)) :
  NoDup pairs.*1 → Py.dict_of pairs = pairs.
Proof.
  unfold Py.dict_of.
  assert (∀ d, NoDup (d.*1 ++ pairs.*1) →
               foldl (λ d kv, Py.setitem kv.1 kv.2 d) d pairs = d ++ pairs) as H'.
  { induction pairs as [|[k v] pairs IH]; intros d Hnd; simpl.
    - by rewrite app_nil_r.
    - simpl in Hnd. rewrite setitem_fresh.
      + rewrite IH; [by rewrite <- app_assoc|].
        rewrite fmap_app. simpl. by rewrite <- app_assoc.
      + apply NoDup_app in Hnd as (_ & Hd & _). intros Hk. apply (Hd k Hk). left. }
  intros Hnd. by apply (H' []).
Qed.
End dict_facts.

Lemma gather_inner (day : string) (meals : list meal_stub) (recipe_ids : list Z)
    (meal_structure : list (string * list meal_stub)) :
  foldl (λ '(recipe_ids, meal_structure) meal,
           (recipe_ids ++ [stub_id meal],
            Py.update day (λ l, l ++ [meal]) meal_structure))
        (recipe_ids, meal_structure) meals
  = (recipe_ids ++ (stub_id <$> meals), Py.update day (λ l, l ++ meals) meal_structure).
Proof.
  revert recipe_ids meal_structure.
  induction meals as [|meal meals IH]; intros recipe_ids meal_structure; simpl.
  - rewrite app_nil_r, update_id; [done|]. intros. by rewrite app_nil_r.
  - rewrite IH, update_update, <- app_assoc. f_equal.
    apply update_ext. intros l. by rewrite <- app_assoc.
Qed.

(** The keys of a JSON object are distinct; then step 2 lists the recipe
    ids in order and copies the meals of each day. *)
Lemma gather_NoDup (week : list (string * day_data)) :
  NoDup week.*1 →
  gather week = (week ≫= (λ '(_, data), stub_id <$> meals data),
                 (λ '(day, data), (day, meals data)) <$> week).
Proof.
  unfold gather.
  assert (∀ recipe_ids (meal_structure : list (string * list meal_stub)),
            NoDup (meal_structure.*1 ++ week.*1) →
            foldl (λ '(recipe_ids, meal_structure) '(day, data),
                     foldl (λ '(recipe_ids, meal_structure) meal,
                              (recipe_ids ++ [stub_id meal],
                               Py.update day (λ l, l ++ [meal]) meal_structure))
                           (recipe_ids, Py.setitem day [] meal_structure)
                           (meals data))
                  (recipe_ids, meal_structure) week
            = (recipe_ids ++ (week ≫= (λ '(_, data), stub_id <$> meals data)),
               meal_structure ++ ((λ '(day, data), (day, meals data)) <$> week))) as H.
  { induction week as [|[day data] week IH]; intros recipe_ids meal_structure Hnd; simpl.
    - by rewrite !app_nil_r.
    - simpl in Hnd.
      assert (day ∉ meal_structure.*1) as Hday.
      { apply NoDup_app in Hnd as (_ & Hd & _). intros Hk. apply (Hd day Hk). left. }
      rewrite gather_inner, setitem_fresh, update_fresh_last by done. simpl.
      rewrite IH.
      + by rewrite <- !app_assoc.
      + rewrite fmap_app. simpl. by rewrite <- app_assoc. }
  intros Hnd. by apply (H [] []).
Qed.

(** ** Generating a plan *)

Lemma generate_success_state settings api defaults request s w recipe recipes_details :
  plan_data_for settings api request ≫= week = Some w →
  recipes_details_for settings api (gather w).1 = Some (recipe :: recipes_details) →
  let rows := generated_rows defaults request s w (recipe :: recipes_details) in
  let out := generate_meal_plan settings api defaults request s in
  out.1 = Ok (redirect "meal_plan")
  ∧ table out.2 = filter (λ row, user row ≠ request_user request) (table s) ++ rows
  ∧ log out.2 = log s ++ OpDelete (request_user request) :: (OpCreate <$> rows)
  ∧ flashed out.2 = flashed s ++ [(SUCCESS, success_generated)].
Proof.
  intros Hw Hd rows out. subst out.
  rewrite (generate_success _ _ _ _ _ _ _ _ Hw Hd). simpl.
  repeat split; try done. by rewrite <- app_assoc.
Qed.

Lemma generated_rows_user defaults request s w recipes_details row :
  row ∈ generated_rows defaults request s w recipes_details →
  user row = request_user request ∧ next_pk s ≤ pk row.
Proof.
  intros (j & kw & Hj & ->)%elem_of_created.
  apply list_elem_of_lookup_2, elem_of_plan_kwargs in Hj
    as (key & meals & i & meal_stub & meal_details & _ & _ & _ & ->).
  simpl. repeat split; try done. lia.
Qed.

Lemma filter_all {A} (P : A → Prop) `{∀ x, Decision (P x)} (l : list A) :
  Forall P l → filter P l = l.
Proof.
  induction 1 as [|x l Hx _ IH]; [done|].
  by rewrite filter_cons, decide_True, IH.
Qed.

Lemma filter_none {A} (P : A → Prop) `{∀ x, Decision (P x)} (l : list A) :
  Forall (λ x, ¬ P x) l → filter P l = [].
Proof.
  induction 1 as [|x l Hx _ IH]; [done|].
  by rewrite filter_cons, decide_False, IH.
Qed.

(** C1 (as amended): when the plan fetch returns a payload with a [week]
    and the bulk details fetch returns a non-empty payload,
    [generate_meal_plan] first deletes every row of the requesting user and
    only then creates the rows of the new plan; the rows of every other
    user are unchanged. *)
Theorem generate_meal_plan_replaces_prior_rows
    settings api defaults request s w recipe recipes_details :
  plan_data_for settings api request ≫= week = Some w →
  recipes_details_for settings api (gather w).1 = Some (recipe :: recipes_details) →
  replaces_prior_rows (generate_meal_plan settings api defaults request s)
                      (request_user request) s.
Proof.
  intros Hw Hd.
  destruct (generate_success_state settings api defaults request s w recipe recipes_details
              Hw Hd) as (Hout & Htable & Hlog & _).
  set (rows := generated_rows defaults request s w (recipe :: recipes_details)) in *.
  assert (Forall (λ row, user row = request_user request ∧ next_pk s ≤ pk row) rows) as Hrows.
  { apply Forall_forall. intros row Hrow.
    by destruct (generated_rows_user _ _ _ _ _ _ Hrow) as (? & ?). }
  exists rows. repeat split; try done.
  - rewrite Htable, filter_app, (filter_none _ rows), app_nil_r.
    + apply filter_all, Forall_forall. by intros row [? _]%list_elem_of_filter.
    + eapply Forall_impl; [exact Hrows|]. simpl. intros row [Hu _] Hne. done.
  - rewrite Htable, filter_app, (filter_all _ rows).
    + rewrite filter_none; [done|]. apply Forall_forall.
      by intros row [? _]%list_elem_of_filter.
    + eapply Forall_impl; [exact Hrows|]. by intros row [Hu _].
Qed.

Lemma generate_meal_plan_replaces_prior_rows_witness :
  replaces_prior_rows
    (generate_meal_plan Sample.settings Sample.api Sample.defaults
       (Sample.request "GET" ∅) Sample.db)
    7 Sample.db.
Proof.
  apply (generate_meal_plan_replaces_prior_rows Sample.settings Sample.api Sample.defaults
           (Sample.request "GET" ∅) Sample.db
           [("mONDAY", {| meals := [ {| stub_id := 10 |}; {| stub_id := 11 |};
                                     {| stub_id := 12 |}; {| stub_id := 11 |} ] |})]
           Sample.soup []); reflexivity.
Defined.

(** C1, counterexample: both fetches return a payload, the second an empty
    list; the handler reports an error and the rows of the user stay. *)
Lemma generate_meal_plan_empty_details_keeps_rows :
  let request := Sample.request "GET" ∅ in
  let out := generate_meal_plan Sample.settings Sample.api_empty_details Sample.defaults
               request Sample.db in
  (∃ w payload,
     plan_data_for Sample.settings Sample.api_empty_details request ≫= week = Some w
     ∧ recipes_details_for Sample.settings Sample.api_empty_details (gather w).1 = Some payload)
  ∧ out = (Ok (redirect "meal_plan"), flash ERROR error_details Sample.db)
  ∧ Sample.row 1 7 None 400 ∈ table out.2
  ∧ ¬ replaces_prior_rows out 7 Sample.db.
Proof.
  repeat split.
  - eexists _, _. split; reflexivity.
  - left.
  - intros (rows & _ & Hlog & _). simpl in Hlog. by destruct rows.
Qed.

(** C2: when the plan fetch fails or returns a payload without [week], or
    the bulk details fetch fails, [generate_meal_plan] flashes an error
    message and redirects, and the table is untouched; so whenever the run
    issues a table operation, both fetches have returned a payload. *)
Theorem generate_meal_plan_api_failure settings api defaults request s :
  let plan_data := plan_data_for settings api request in
  let details_of w := recipes_details_for settings api (gather w).1 in
  let out := generate_meal_plan settings api defaults request s in
  (plan_data = None
   ∨ (∃ payload, plan_data = Some payload ∧ week payload = None)
   ∨ (∃ payload w, plan_data = Some payload ∧ week payload = Some w ∧ details_of w = None) →
   ∃ text,
     out.1 = Ok (redirect "meal_plan")
     ∧ flashed out.2 = flashed s ++ [(ERROR, text)]
     ∧ table out.2 = table s ∧ next_pk out.2 = next_pk s ∧ log out.2 = log s)
  ∧ (log out.2 ≠ log s →
     ∃ payload w recipes_details,
       plan_data = Some payload ∧ week payload = Some w
       ∧ details_of w = Some recipes_details).
Proof.
  intros plan_data details_of out.
  assert (plan_data ≫= week = None
          ∨ ∃ payload w, plan_data = Some payload ∧ week payload = Some w) as [Hnone|Hsome].
  { destruct plan_data as [payload|]; [|by left].
    destruct (week payload) as [w|] eqn:Hw; [right; eauto | by left]. }
  - subst out. rewrite (generate_no_plan _ _ _ _ _ Hnone). split.
    + intros _. by exists error_plan.
    + by intros [].
  - destruct Hsome as (payload & w & Hp & Hw).
    assert (plan_data ≫= week = Some w) as Hplan by by rewrite Hp.
    destruct (details_of w) as [[|recipe recipes_details]|] eqn:Hd.
    + subst out. rewrite (generate_no_details _ _ _ _ _ w Hplan) by by right.
      split; [|by intros []].
      intros [? | [(? & ? & ?) | (? & w' & ? & ? & Hd')]]; [congruence.. |].
      assert (w' = w) as -> by congruence. congruence.
    + split.
      * intros [? | [(? & ? & ?) | (? & w' & ? & ? & Hd')]]; [congruence.. |].
        assert (w' = w) as -> by congruence. congruence.
      * intros _. by exists payload, w, (recipe :: recipes_details).
    + subst out. rewrite (generate_no_details _ _ _ _ _ w Hplan) by by left.
      split; [|by intros []]. intros _. by exists error_details.
Qed.

Lemma generate_meal_plan_api_failure_witness :
  (let out := generate_meal_plan Sample.settings Sample.api_no_details Sample.defaults
                (Sample.request "GET" ∅) Sample.db in
   ∃ text,
     out.1 = Ok (redirect "meal_plan")
     ∧ flashed out.2 = flashed Sample.db ++ [(ERROR, text)]
     ∧ table out.2 = table Sample.db ∧ next_pk out.2 = next_pk Sample.db
     ∧ log out.2 = log Sample.db)
  ∧ ∃ payload w recipes_details,
      plan_data_for Sample.settings Sample.api (Sample.request "GET" ∅) = Some payload
      ∧ week payload = Some w
      ∧ recipes_details_for Sample.settings Sample.api (gather w).1 = Some recipes_details.
Proof.
  split.
  - apply (generate_meal_plan_api_failure Sample.settings Sample.api_no_details
             Sample.defaults (Sample.request "GET" ∅) Sample.db).
    right. right. eexists _, _. repeat split; reflexivity.
  - apply (generate_meal_plan_api_failure Sample.settings Sample.api Sample.defaults
             (Sample.request "GET" ∅) Sample.db).
    by vm_compute.
Defined.




Lemma length_plan_kwargs u (details_map : gmap Z recipe_info)
    (meal_structure : list (string * list meal_stub)) :
  length (plan_kwargs u details_map meal_structure)
  = length (filter (λ meal_stub, is_Some (details_map !! stub_id meal_stub))
                   (meal_structure ≫= snd)).
Proof.
  unfold plan_kwargs.
  induction meal_structure as [|[day meals] ms IH]; [done|].
  rewrite !bind_cons, filter_app, !length_app, IH. f_equal. clear IH. simpl.
  unfold Py.enumerate.
  assert (∀ h : nat → nat,
            length (imap (λ i x, (h i, x)) meals ≫= (λ '(i, meal_stub),
                      match details_map !! stub_id meal_stub with
                      | Some meal_details => [generated_meal u day i meal_details]
                      | None => []
                      end))
            = length (filter (λ meal_stub, is_Some (details_map !! stub_id meal_stub)) meals))
    as H; [|exact (H id)].
  induction meals as [|meal_stub meals IH]; intros h; [done|].
  rewrite imap_cons, bind_cons, length_app, filter_cons.
  specialize (IH (λ i, h (S i))). unfold compose. simpl in IH |- *. rewrite IH.
  destruct (details_map !! stub_id meal_stub) as [d|] eqn:Hd.
  - by rewrite decide_True by eauto.
  - rewrite decide_False; [done|]. by intros [? ?].
Qed.

Section generated_rows.
Context (defaults : ModelDefaults) (request : HttpRequest) (s : state).
Context (w : list (string * day_data)) (recipes_details : list recipe_info).
Context (Hkeys : NoDup w.*1).

Lemma generated_rows_origin row :
  row ∈ generated_rows defaults request s w recipes_details →
  ∃ day data (i : nat) meal_stub meal_details key,
    (day, data) ∈ w ∧ meals data !! i = Some meal_stub
    ∧ details_map_of recipes_details !! stub_id meal_stub = Some meal_details
    ∧ row = objects.new_row defaults key
              (generated_meal (request_user request) day i meal_details).
Proof using Hkeys.
  unfold generated_rows. rewrite gather_NoDup by done. simpl.
  intros (j & kw & Hj & ->)%elem_of_created.
  apply list_elem_of_lookup_2, elem_of_plan_kwargs in Hj
    as (day & meals' & i & meal_stub & meal_details & Hday & Hi & Hd & ->).
  apply list_elem_of_fmap in Hday as ([day' data] & [= -> ->] & Hday).
  by exists day', data, i, meal_stub, meal_details, (next_pk s + Z.of_nat j).
Qed.


Lemma length_generated_rows :
  length (generated_rows defaults request s w recipes_details)
  = length (filter (λ meal_stub, is_Some (details_map_of recipes_details !! stub_id meal_stub))
                   (w ≫= (λ '(_, data), meals data))).
Proof using Hkeys.
  unfold generated_rows. rewrite length_created, length_plan_kwargs, gather_NoDup by done.
  simpl. do 2 f_equal. clear. induction w as [|[day data] w' IH]; [done|].
  by rewrite fmap_cons, !bind_cons, IH.
Qed.
End generated_rows.

(** C10: a meal of the fetched plan whose recipe id is not in the details
    map produces no row: the rows created are as many as the meals whose id
    is in the map, none of them carries the id of a meal that is missing
    from the bulk answer, and the success message is flashed all the same. *)
Theorem generate_meal_plan_skips_meals_without_details
    settings api defaults request s w recipe recipes_details :
  NoDup w.*1 →
  plan_data_for settings api request ≫= week = Some w →
  recipes_details_for settings api (gather w).1 = Some (recipe :: recipes_details) →
  let details_map := details_map_of (recipe :: recipes_details) in
  let plan_meals := w ≫= (λ '(_, data), meals data) in
  let out := generate_meal_plan settings api defaults request s in
  ∃ rows,
    table out.2 = filter (λ row, user row ≠ request_user request) (table s) ++ rows
    ∧ length rows
      = length (filter (λ meal_stub, is_Some (details_map !! stub_id meal_stub)) plan_meals)
    ∧ (length rows ≤ length plan_meals)%nat
    ∧ (∀ meal_stub row,
         meal_stub ∈ plan_meals →
         (∀ r, r ∈ recipe :: recipes_details → info_id r ≠ stub_id meal_stub) →
         row ∈ rows → spoonacular_id row ≠ Some (stub_id meal_stub))
    ∧ out.1 = Ok (redirect "meal_plan")
    ∧ flashed out.2 = flashed s ++ [(SUCCESS, success_generated)].
Proof.
  intros Hkeys Hw Hd details_map plan_meals out.
  destruct (generate_success_state settings api defaults request s w recipe recipes_details
              Hw Hd) as (Hout & Htable & _ & Hflash).
  exists (generated_rows defaults request s w (recipe :: recipes_details)).
  repeat split; try done.
  - by apply length_generated_rows.
  - rewrite length_generated_rows by done. apply length_filter.
  - intros meal_stub row _ Habsent Hrow.
    apply generated_rows_origin in Hrow
      as (day & data & i & stub' & meal_details & key & _ & _ & Hdet & ->); [|done].
    apply details_map_of_Some in Hdet as [Hin Hid]. simpl. intros [= Heq].
    by apply (Habsent meal_details Hin).
Qed.

Lemma generate_meal_plan_skips_meals_without_details_witness :
  let out := generate_meal_plan Sample.settings Sample.api Sample.defaults
               (Sample.request "GET" ∅) Sample.db in
  ∃ rows,
    table out.2 = filter (λ row, user row ≠ 7) (table Sample.db) ++ rows
    ∧ length rows = 2%nat
    ∧ (length rows ≤ 4)%nat
    ∧ (∀ meal_stub row,
         meal_stub ∈ [ {| stub_id := 10 |}; {| stub_id := 11 |};
                       {| stub_id := 12 |}; {| stub_id := 11 |} ] →
         (∀ r, r ∈ [Sample.soup] → info_id r ≠ stub_id meal_stub) →
         row ∈ rows → spoonacular_id row ≠ Some (stub_id meal_stub))
    ∧ out.1 = Ok (redirect "meal_plan")
    ∧ flashed out.2 = flashed Sample.db ++ [(SUCCESS, success_generated)].
Proof.
  apply (generate_meal_plan_skips_meals_without_details Sample.settings Sample.api
           Sample.defaults (Sample.request "GET" ∅) Sample.db
           [("mONDAY", {| meals := [ {| stub_id := 10 |}; {| stub_id := 11 |};
                                     {| stub_id := 12 |}; {| stub_id := 11 |} ] |})]
           Sample.soup []); [|reflexivity..].
  apply NoDup_singleton.
Defined.




(** ** Swapping, toggling and adding a meal *)

Lemma get_Some meal_id u t row :
  objects.get meal_id u t = Some row → row ∈ t ∧ pk row = meal_id ∧ user row = u.
Proof.
  unfold objects.get. intros [Hin Hp]%find_some.
  apply bool_decide_eq_true in Hp. by rewrite list_elem_of_In.
Qed.

Lemma replace_meal_run settings api request meal_id s :
  replace_meal settings api request meal_id s
  = if String.eqb (method request) "POST" then
      match objects.get meal_id (request_user request) (table s) with
      | None => (Raise Http404, s)
      | Some original_meal =>
          match replacement_for settings api original_meal with
          | Some data =>
              if Py.truthy (results data) || Py.truthy (recipes data) then
                match results_or_recipes data with
                | Some (new_recipe :: _) =>
                    (Ok (swap_json (swapped original_meal new_recipe)),
                     after_save (swapped original_meal new_recipe) s)
                | Some [] => (Raise IndexError, s)
                | None => (Raise TypeError, s)
                end
              else (Ok (failure_json no_replacement), s)
          | None => (Ok (failure_json no_replacement), s)
          end
      end
    else (Ok (failure_json no_replacement), s).
Proof.
  unfold replace_meal. destruct (String.eqb _ _); [|done].
  rewrite run_bind. unfold objects.get_or_404.
  destruct (objects.get _ _ _) as [original_meal|]; [|done].
  destruct (replacement_for _ _ _) as [data|]; [|done].
  destruct (_ || _); [|done].
  rewrite run_bind. by destruct (results_or_recipes data) as [[|new_recipe ?]|].
Qed.

Lemma toggle_meal_eaten_run now request meal_id s :
  toggle_meal_eaten now request meal_id s
  = if String.eqb (method request) "POST" then
      match objects.get meal_id (request_user request) (table s) with
      | None => (Raise Http404, s)
      | Some meal => (Ok (toggle_json (toggled now meal)), after_save (toggled now meal) s)
      end
    else (Ok (failure_json "Invalid request"), s).
Proof.
  unfold toggle_meal_eaten. destruct (String.eqb _ _); [|done].
  rewrite run_bind. unfold objects.get_or_404.
  by destruct (objects.get _ _ _) as [meal|].
Qed.

Lemma add_meal_to_plan_run defaults request s :
  add_meal_to_plan defaults request s
  = if String.eqb (method request) "POST" then
      match body_json request with
      | inl msg => (Ok (failure_json msg), s)
      | inr data =>
          match added_meal (request_user request) data with
          | inl e => (Ok (failure_json (str_exn e)), s)
          | inr kw => (Ok (JsonResponse [("success", JBool true)]),
                       after_creates defaults [kw] s)
          end
      end
    else (Ok (failure_json "Invalid request method"), s).
Proof.
  unfold add_meal_to_plan. destruct (String.eqb _ _); [|done].
  unfold try_except. rewrite run_bind.
  destruct (body_json request) as [msg|data]; [done|]. simpl.
  unfold added_meal.
  destruct (data_day data); [|done]. rewrite run_bind. simpl.
  destruct (data_meal_type data); [|done]. rewrite run_bind. simpl.
  destruct (data_name data); [|done]. rewrite run_bind. simpl.
  destruct (data_recipe_id data); [|done]. rewrite run_bind. simpl.
  unfold after_creates. simpl. by rewrite Z.add_1_r.
Qed.



(** C9: a successful swap rewrites the target meal and nothing else, and
    of the target only [meal_name], [spoonacular_id], [calories] and
    [image_url]; its day, meal type, macro strings, eaten flag and eaten
    timestamp stay as stored. *)
Theorem replace_meal_frame settings api request meal_id s fields s' :
  replace_meal settings api request meal_id s
  = (Ok (JsonResponse (("success", JBool true) :: fields)), s') →
  ∃ original updated new_recipe,
    objects.get meal_id (request_user request) (table s) = Some original
    ∧ (∃ data rest, replacement_for settings api original = Some data
                    ∧ results_or_recipes data = Some (new_recipe :: rest))
    ∧ table s' = (λ row, if bool_decide (pk row = meal_id) then updated else row) <$> table s
    ∧ pk updated = pk original ∧ user updated = user original
    ∧ day updated = day original ∧ meal_type updated = meal_type original
    ∧ protein updated = protein original ∧ carbs updated = carbs original
    ∧ fats updated = fats original
    ∧ eaten updated = eaten original ∧ eaten_at updated = eaten_at original
    ∧ meal_name updated = hit_title new_recipe
    ∧ spoonacular_id updated = Some (hit_id new_recipe)
    ∧ image_url updated = hit_image new_recipe.
Proof.
  rewrite replace_meal_run. intros Hrun.
  destruct (String.eqb _ _); [|done].
  destruct (objects.get _ _ _) as [original|] eqn:Hget; [|done].
  destruct (replacement_for _ _ _) as [data|] eqn:Hdata; [|done].
  destruct (_ || _); [|done].
  destruct (results_or_recipes data) as [[|new_recipe rest]|] eqn:Hfirst; [done| |done].
  injection Hrun as _ <-.
  exists original, (swapped original new_recipe), new_recipe.
  apply get_Some in Hget as Hget'. destruct Hget' as (_ & <- & _).
  split; [done|]. split; [by exists data, rest|]. by repeat split.
Qed.

Lemma replace_meal_frame_witness :
  ∃ original updated new_recipe,
    objects.get 1 7 (table Sample.db) = Some original
    ∧ (∃ data rest, replacement_for Sample.settings Sample.api_search original = Some data
                    ∧ results_or_recipes data = Some (new_recipe :: rest))
    ∧ table (replace_meal Sample.settings Sample.api_search (Sample.request "POST" ∅) 1
               Sample.db).2
      = (λ row, if bool_decide (pk row = 1) then updated else row) <$> table Sample.db
    ∧ pk updated = pk original ∧ user updated = user original
    ∧ day updated = day original ∧ meal_type updated = meal_type original
    ∧ protein updated = protein original ∧ carbs updated = carbs original
    ∧ fats updated = fats original
    ∧ eaten updated = eaten original ∧ eaten_at updated = eaten_at original
    ∧ meal_name updated = hit_title new_recipe
    ∧ spoonacular_id updated = Some (hit_id new_recipe)
    ∧ image_url updated = hit_image new_recipe.
Proof.
  apply (replace_meal_frame Sample.settings Sample.api_search (Sample.request "POST" ∅) 1
           Sample.db
           [("meal_name", JStr "Paneer"); ("calories", JInt 400);
            ("image_url", JStr "paneer.jpg")]).
  by vm_compute.
Defined.


(** ** Nutrient extraction *)






(** ** The JSON endpoints *)




(** ** Views that only read *)

Lemma read_only_ret {A} (a : A) : read_only (mret a).
Proof. by intros s. Qed.

Lemma read_only_raise {A} e : read_only (@raise A e).
Proof. by intros s. Qed.

Lemma read_only_bind {A B} (m : M A) (f : A → M B) :
  read_only m → (∀ a, read_only (f a)) → read_only (m ≫= f).
Proof.
  intros Hm Hf s. rewrite run_bind. specialize (Hm s).
  destruct (m s) as [[a|e] s1]; simpl in Hm; subst s1; [apply Hf | done].
Qed.

Lemma read_only_getitem {A} key (member : option A) : read_only (getitem key member).
Proof. destruct member; [apply read_only_ret | apply read_only_raise]. Qed.

Lemma read_only_all : read_only objects.all.
Proof. by intros s. Qed.

Lemma read_only_for_fold {A S} (l : list A) (acc : S) (body : S → A → M S) :
  (∀ acc x, read_only (body acc x)) → read_only (for_fold l acc body).
Proof.
  intros Hbody. revert acc. induction l as [|x l IH]; intros acc; simpl.
  - apply read_only_ret.
  - apply read_only_bind; [apply Hbody | apply IH].
Qed.

Lemma read_only_comprehension {A B} (f : A → M B) (l : list A) :
  (∀ x, read_only (f x)) → read_only (comprehension f l).
Proof.
  intros Hf. induction l as [|x l IH]; simpl.
  - apply read_only_ret.
  - apply read_only_bind; [apply Hf|]. intros y.
    apply read_only_bind; [apply IH|]. intros ys. apply read_only_ret.
Qed.

Lemma read_only_meal_plan_view request : read_only (meal_plan_view request).
Proof.
  unfold meal_plan_view. apply read_only_bind; [apply read_only_all|].
  intros all. apply read_only_ret.
Qed.

Lemma read_only_discover_meals settings api request :
  read_only (discover_meals settings api request).
Proof.
  unfold discover_meals. apply read_only_bind; [|intros; apply read_only_ret].
  destruct (_ ≫= results); [|apply read_only_ret].
  apply read_only_for_fold. intros acc recipe.
  apply read_only_bind; [apply read_only_getitem | intros; apply read_only_ret].
Qed.

Lemma read_only_grocery_list settings api request :
  read_only (grocery_list settings api request).
Proof.
  unfold grocery_list. apply read_only_bind; [apply read_only_all|].
  intros all. case_decide; apply read_only_ret.
Qed.

Lemma read_only_tally meals_last_7_days daily_data :
  read_only (tally meals_last_7_days daily_data).
Proof.
  apply read_only_for_fold. intros acc meal.
  destruct (eaten_at meal); [|apply read_only_raise].
  cbv zeta. case_match; apply read_only_ret.
Qed.

Lemma read_only_progress_view now request : read_only (progress_view now request).
Proof.
  unfold progress_view. apply read_only_bind; [apply read_only_all|]. intros all.
  apply read_only_bind; [apply read_only_tally|]. intros daily_data.
  apply read_only_bind.
  { apply read_only_comprehension. intros d.
    apply read_only_bind; [apply read_only_getitem | intros; apply read_only_ret]. }
  intros calories_data. apply read_only_bind.
  { apply read_only_comprehension. intros d.
    apply read_only_bind; [apply read_only_getitem | intros; apply read_only_ret]. }
  intros meals_data. destruct (if bool_decide _ then _ else _) as [? ?].
  case_decide; apply read_only_ret.
Qed.

(** ** The eaten flag and its timestamp *)

Lemma eaten_kept_refl defaults t row : row ∈ t → eaten_kept_or_default defaults t row.
Proof. intros ?. left. by exists row. Qed.

Lemma elem_of_after_save meal s row' :
  row' ∈ table (after_save meal s) → row' = meal ∨ row' ∈ table s.
Proof.
  simpl. intros (row & -> & Hrow)%list_elem_of_fmap.
  case_bool_decide; [by left | by right].
Qed.

Lemma after_creates_kept defaults kws s row' :
  row' ∈ table (after_creates defaults kws s) →
  row' ∈ table s
  ∨ (eaten row' = default_eaten defaults ∧ eaten_at row' = default_eaten_at defaults).
Proof.
  simpl. intros [?|Hnew]%elem_of_app; [by left|]. right.
  by apply elem_of_created in Hnew as (j & kw & _ & ->).
Qed.

Lemma call_keeps_eaten settings api defaults now v request s row' :
  (∀ meal_id, v ≠ ToggleMealEaten meal_id) →
  row' ∈ table (call settings api defaults now v request s).2 →
  eaten_kept_or_default defaults (table s) row'.
Proof.
  intros Hv. destruct v as [| |meal_id|meal_id| | | |]; cbn [call].
  - (* generate_meal_plan *)
    destruct (plan_data_for settings api request ≫= week) as [w|] eqn:Hw.
    + destruct (recipes_details_for settings api (gather w).1)
        as [[|recipe recipes_details]|] eqn:Hd.
      * rewrite (generate_no_details _ _ _ _ _ w Hw) by by right. apply eaten_kept_refl.
      * rewrite (generate_success _ _ _ _ _ _ _ _ Hw Hd).
        intros [Hold|Hnew]%after_creates_kept; [|by right].
        apply list_elem_of_filter in Hold as [_ ?]. by apply eaten_kept_refl.
      * rewrite (generate_no_details _ _ _ _ _ w Hw) by by left. apply eaten_kept_refl.
    + rewrite (generate_no_plan _ _ _ _ _ Hw). apply eaten_kept_refl.
  - rewrite (read_only_meal_plan_view request s). apply eaten_kept_refl.
  - (* replace_meal *)
    rewrite replace_meal_run.
    destruct (String.eqb _ _); [|apply eaten_kept_refl].
    destruct (objects.get _ _ _) as [original|] eqn:Hget; [|apply eaten_kept_refl].
    destruct (replacement_for _ _ _) as [data|]; [|apply eaten_kept_refl].
    destruct (_ || _); [|apply eaten_kept_refl].
    destruct (results_or_recipes data) as [[|new_recipe rest]|]; try apply eaten_kept_refl.
    intros [-> | ?]%elem_of_after_save; [|by apply eaten_kept_refl].
    left. exists original. by apply get_Some in Hget as (? & _ & _).
  - by destruct (Hv meal_id).
  - rewrite (read_only_discover_meals settings api request s). apply eaten_kept_refl.
  - rewrite (read_only_grocery_list settings api request s). apply eaten_kept_refl.
  - rewrite (read_only_progress_view now request s). apply eaten_kept_refl.
  - (* add_meal_to_plan *)
    rewrite add_meal_to_plan_run.
    destruct (String.eqb _ _); [|apply eaten_kept_refl].
    destruct (body_json request) as [msg|data]; [apply eaten_kept_refl|].
    destruct (added_meal _ _) as [e|kw]; [apply eaten_kept_refl|].
    intros [?|?]%after_creates_kept; [by apply eaten_kept_refl | by right].
Qed.

Lemma toggled_consistent now meal : eaten_consistent (toggled now meal).
Proof.
  unfold eaten_consistent. simpl. destruct (eaten meal); simpl.
  - split; [by intros [? ?] | done].
  - split; [done | by eexists].
Qed.

(** C8: with the column defaults [eaten = False] and [eaten_at = NULL],
    every view keeps the invariant that a stored meal has an eaten
    timestamp exactly when its eaten flag is set.  [toggle_meal_eaten]
    negates the flag of the meal it finds and stores the current time when
    the new flag is true and no timestamp when it is false; every other
    view leaves the flag and the timestamp of the rows it keeps as they
    were and creates rows with the default flag and timestamp. *)
Theorem eaten_at_iff_eaten settings api defaults now v request s :
  default_eaten defaults = false → default_eaten_at defaults = None →
  let s' := (call settings api defaults now v request s).2 in
  (Forall eaten_consistent (table s) → Forall eaten_consistent (table s'))
  ∧ (∀ meal_id meal,
       v = ToggleMealEaten meal_id → method request = "POST" →
       objects.get meal_id (request_user request) (table s) = Some meal →
       ∃ meal',
         table s' = (λ row, if bool_decide (pk row = meal_id) then meal' else row) <$> table s
         ∧ eaten meal' = negb (eaten meal)
         ∧ eaten_at meal' = (if eaten meal then None else Some now))
  ∧ ((∀ meal_id, v ≠ ToggleMealEaten meal_id) →
     Forall (eaten_kept_or_default defaults (table s)) (table s')).
Proof.
  intros Hflag Hstamp s'. split; [|split].
  - intros Hinv. rewrite Forall_forall in Hinv. apply Forall_forall. intros row' Hrow'.
    assert ((∃ meal_id, v = ToggleMealEaten meal_id)
            ∨ ∀ meal_id, v ≠ ToggleMealEaten meal_id) as [[meal_id ->]|Hv]
      by (destruct v; eauto).
    + subst s'. cbn [call] in Hrow'. rewrite toggle_meal_eaten_run in Hrow'.
      destruct (String.eqb _ _); [|by apply Hinv].
      destruct (objects.get _ _ _) as [meal|]; [|by apply Hinv].
      apply elem_of_after_save in Hrow' as [-> | ?]; [|by apply Hinv].
      apply toggled_consistent.
    + destruct (call_keeps_eaten settings api defaults now v request s row')
        as [(row & Hrow & _ & He & Het) | [He Het]]; [done | done | |].
      * unfold eaten_consistent. rewrite He, Het. by apply Hinv.
      * unfold eaten_consistent. rewrite He, Het, Hflag, Hstamp.
        split; [by intros [? ?] | done].
  - intros meal_id meal -> Hpost Hget. subst s'. cbn [call].
    rewrite toggle_meal_eaten_run, (proj2 (String.eqb_eq _ _) Hpost), Hget.
    exists (toggled now meal). simpl.
    apply get_Some in Hget as (_ & <- & _). repeat split. by destruct (eaten meal).
  - intros Hv. apply Forall_forall. intros row' Hrow'.
    by apply (call_keeps_eaten settings api defaults now v request s).
Qed.

Lemma eaten_at_iff_eaten_witness :
  let s' := (toggle_meal_eaten 100000 (Sample.request "POST" ∅) 1 Sample.db).2 in
  Forall eaten_consistent (table s')
  ∧ ∃ meal',
      table s' = (λ row, if bool_decide (pk row = 1) then meal' else row) <$> table Sample.db
      ∧ eaten meal' = true ∧ eaten_at meal' = Some 100000.
Proof.
  destruct (eaten_at_iff_eaten Sample.settings Sample.api Sample.defaults 100000
              (ToggleMealEaten 1) (Sample.request "POST" ∅) Sample.db eq_refl eq_refl)
    as (Hinv & Htoggle & _).
  split.
  - apply Hinv.
    assert (∀ key owner t kcal, eaten_consistent (Sample.row key owner t kcal)) as Hrow.
    { intros. unfold eaten_consistent. simpl. symmetry. apply bool_decide_eq_true. }
    do 3 (apply Forall_cons_2; [apply Hrow|]). apply Forall_nil_2.
  - by apply (Htoggle 1 (Sample.row 1 7 None 400)).
Defined.

(** ** Sorting strings *)

Lemma leb_cases a b : String.leb a b = true ↔ a = b ∨ OrderedTypeEx.String_as_OT.lt a b.
Proof.
  unfold String.leb.
  destruct (String.compare a b) eqn:Hc.
  - apply OrderedTypeEx.String_as_OT.cmp_eq in Hc. split; [by left | done].
  - apply OrderedTypeEx.String_as_OT.cmp_lt in Hc. split; [by right | done].
  - split; [done|]. intros [->|Hlt]; exfalso.
    + assert (String.compare b b = Eq) as Hb
        by by apply OrderedTypeEx.String_as_OT.cmp_eq.
      congruence.
    + apply OrderedTypeEx.String_as_OT.cmp_lt in Hlt.
      unfold OrderedTypeEx.String_as_OT.cmp in Hlt. congruence.
Qed.

Lemma ltb_lt a b : String.ltb a b = true ↔ OrderedTypeEx.String_as_OT.lt a b.
Proof.
  unfold String.ltb. rewrite <- OrderedTypeEx.String_as_OT.cmp_lt.
  unfold OrderedTypeEx.String_as_OT.cmp. by destruct (String.compare a b).
Qed.

Global Instance leb_transitive : Transitive (λ a b : string, String.leb a b).
Proof.
  intros a b c Hab%Is_true_true%leb_cases Hbc%Is_true_true%leb_cases.
  apply Is_true_true, leb_cases.
  destruct Hab as [->|Hab]; [done|]. destruct Hbc as [<-|Hbc]; [by right|].
  right. by eapply OrderedTypeEx.String_as_OT.lt_trans.
Qed.

Global Instance leb_total : Total (λ a b : string, String.leb a b).
Proof.
  intros a b. destruct (String.leb_total a b) as [H|H];
    [left | right]; by apply Is_true_true.
Qed.

(** [sorted] lists the elements of a set by strictly increasing code
    points. *)
Lemma sorted_elements (X : gset string) :
  StronglySorted (λ a b, String.ltb a b = true) (Py.sorted (elements X))
  ∧ ∀ x, x ∈ Py.sorted (elements X) ↔ x ∈ X.
Proof.
  unfold Py.sorted. split.
  - assert (NoDup (merge_sort (λ a b : string, String.leb a b) (elements X))) as Hnd.
    { rewrite merge_sort_Permutation. apply NoDup_elements. }
    pose proof (StronglySorted_merge_sort (λ a b : string, String.leb a b) (elements X))
      as Hsorted.
    induction Hsorted as [|a l Hl IH Ha]; [constructor|].
    apply NoDup_cons in Hnd as [Hnotin Hnd]. constructor; [by apply IH|].
    rewrite Forall_forall in Ha |- *. intros b Hb.
    specialize (Ha b Hb). apply Is_true_true, leb_cases in Ha as [->|Hlt]; [done|].
    by apply ltb_lt.
  - intros x. by rewrite merge_sort_Permutation, elem_of_elements.
Qed.

(** ** The grocery list *)


Lemma csv_rows_foldl {A} (f : A → list cell) (header : list (list cell)) (items : list A) :
  foldl (λ rows item, rows ++ [f item]) header items = header ++ (f <$> items).
Proof.
  revert header. induction items as [|item items IH]; intros header; simpl.
  - by rewrite app_nil_r.
  - by rewrite IH, <- app_assoc.
Qed.

Lemma grocery_list_run settings api request s :
  let shopping_list :=
    Py.sorted (elements (add_ingredients
                           (planned_recipes settings api (request_user request) (table s)) ∅)) in
  grocery_list settings api request s
  = (Ok (if decide (GET request !! "format" = Some "csv")
         then CsvResponse "grocery_list.csv"
                ([CellStr "Ingredient"] :: ((λ item, [CellStr item]) <$> shopping_list))
         else render "meals/grocery_list.html" (GroceryContext shopping_list)), s).
Proof.
  intros shopping_list. unfold grocery_list. rewrite run_bind.
  change (objects.all s) with (Ok (table s), s). cbv iota beta zeta.
  assert (match planned_recipe_ids (objects.filter_user (request_user request) (table s)) with
          | [] => ∅
          | _ :: _ =>
              match fetch settings (recipes_informationBulk api)
                      [("ids", PStr (Py.join ","
                           (Py.str <$> planned_recipe_ids
                              (objects.filter_user (request_user request) (table s)))))] with
              | Some recipes_data => add_ingredients recipes_data ∅
              | None => ∅
              end
          end
          = add_ingredients (planned_recipes settings api (request_user request) (table s)) ∅)
    as ->.
  { unfold planned_recipes.
    destruct (planned_recipe_ids _) as [|z ids]; [done|].
    by destruct (fetch _ _ _). }
  fold shopping_list. case_decide; [|done].
  by rewrite csv_rows_foldl.
Qed.

(** ** The weekly progress *)

Lemma sum_foldl acc (l : list Z) : foldl Z.add acc l = acc + Py.sum l.
Proof.
  unfold Py.sum. revert acc. induction l as [|x l IH]; intros acc; simpl; [lia|].
  rewrite (IH (acc + x)), (IH (0 + x)). lia.
Qed.

Lemma sum_cons x (l : list Z) : Py.sum (x :: l) = x + Py.sum l.
Proof. unfold Py.sum at 1. simpl. apply sum_foldl. Qed.

Lemma sum_Permutation (l1 l2 : list Z) : l1 ≡ₚ l2 → Py.sum l1 = Py.sum l2.
Proof.
  induction 1 as [|x l1 l2 _ IH|x y l|l1 l2 l3 _ IH1 _ IH2];
    rewrite ?sum_cons; lia.
Qed.

Lemma fmap_id_on {A} (f : A → A) (l : list A) : (∀ x, x ∈ l → f x = x) → f <$> l = l.
Proof.
  intros Hf. induction l as [|x l IH]; [done|].
  rewrite fmap_cons, Hf by left. f_equal. apply IH. intros y Hy. apply Hf. by right.
Qed.

Lemma update_NoDup {V} (k : date) (f : V → V) (d : list (date * V)) :
  NoDup d.*1 →
  Py.update k f d = (λ kv, (kv.1, if decide (k = kv.1) then f kv.2 else kv.2)) <$> d.
Proof.
  induction d as [|[k' v'] d IH]; simpl; [done|].
  intros [Hnotin Hnd]%NoDup_cons. case_decide as Hk.
  - subst k'. f_equal. symmetry. apply fmap_id_on. intros [k'' v''] Hin. simpl.
    rewrite decide_False; [done|]. intros ->. apply Hnotin.
    apply list_elem_of_fmap. by exists (k'', v'').
  - f_equal. by apply IH.
Qed.

Lemma tally_run meals_last_7_days (daily_data : list (date * day_totals)) s :
  NoDup daily_data.*1 →
  Forall (λ meal, is_Some (eaten_at meal)) meals_last_7_days →
  tally meals_last_7_days daily_data s
  = (Ok ((λ kv, (kv.1, foldl (λ tot meal, bump meal kv.1 tot) kv.2 meals_last_7_days))
           <$> daily_data), s).
Proof.
  intros Hnd Hall. revert daily_data Hnd.
  induction Hall as [|meal l [t Ht] _ IH]; intros daily_data Hnd.
  - simpl. unfold tally. simpl. unfold mret, M_ret. do 2 f_equal.
    symmetry. apply fmap_id_on. by intros [? ?] _.
  - unfold tally in *. simpl. rewrite run_bind, Ht. cbv zeta.
    assert ((if Py.has_key (date_of t) daily_data
             then Py.update (date_of t)
                    (λ d, {| total_calories := total_calories d + calories meal;
                             total_meals := total_meals d + 1 |}) daily_data
             else daily_data)
            = (λ kv, (kv.1, bump meal kv.1 kv.2)) <$> daily_data) as Hstep.
    { destruct (Py.has_key (date_of t) daily_data) eqn:Hkey.
      - rewrite update_NoDup by done.
        apply list_fmap_ext. intros i [k v] _. simpl. unfold bump, eaten_date.
        rewrite Ht. simpl. by repeat case_decide; simplify_eq.
      - symmetry. apply fmap_id_on. intros [k v] Hin. simpl. unfold bump, eaten_date.
        rewrite Ht. simpl. rewrite decide_False; [done|]. intros [= Hk].
        apply not_true_iff_false in Hkey. apply Hkey, has_key_elem_of.
        apply list_elem_of_fmap. by exists (k, v). }
    rewrite if_mret, Hstep, run_ret, IH by (by rewrite <- list_fmap_compose).
    do 2 f_equal. rewrite <- list_fmap_compose. by apply list_fmap_ext.
Qed.

Lemma foldl_bump d tot (l : list MealPlan) :
  foldl (λ tot meal, bump meal d tot) tot l
  = {| total_calories := total_calories tot
                         + Py.sum (calories <$> filter (λ meal, eaten_date meal = Some d) l);
       total_meals := total_meals tot
                      + Z.of_nat (length (filter (λ meal, eaten_date meal = Some d) l)) |}.
Proof.
  revert tot. induction l as [|meal l IH]; intros tot; simpl.
  - destruct tot. unfold Py.sum. simpl. f_equal; lia.
  - rewrite IH, filter_cons. unfold bump. case_decide; [|done].
    cbn [total_calories total_meals]. rewrite fmap_cons, sum_cons, length_cons.
    f_equal; lia.
Qed.

Lemma NoDup_last_7_days now : NoDup (last_7_days now).
Proof.
  unfold last_7_days.
  repeat (apply NoDup_cons; split; [rewrite ?not_elem_of_cons, elem_of_nil;
                                    repeat split; (lia || tauto)|]).
  apply NoDup_nil_2.
Qed.

Lemma last_7_days_range now d : d ∈ last_7_days now → date_of now - 6 ≤ d.
Proof. unfold last_7_days. rewrite !elem_of_cons, elem_of_nil. lia. Qed.

Lemma eaten_since_Permutation u since t :
  eaten_since u since t
  ≡ₚ filter (λ meal, user meal = u ∧ eaten meal = true ∧ eaten_at__date__gte since meal) t.
Proof. apply merge_sort_Permutation. Qed.

Lemma eaten_since_on u since d t :
  since ≤ d →
  filter (λ meal, eaten_date meal = Some d) (eaten_since u since t) ≡ₚ eaten_on u d t.
Proof.
  intros Hd. rewrite eaten_since_Permutation, list_filter_filter. unfold eaten_on.
  erewrite list_filter_iff; [done|]. intros meal. unfold eaten_at__date__gte.
  split.
  - by intros (? & ? & ? & _).
  - intros (? & ? & Hdate). by rewrite Hdate.
Qed.

Lemma eaten_since_timestamps u since t :
  Forall (λ meal, is_Some (eaten_at meal)) (eaten_since u since t).
Proof.
  apply Forall_forall. intros meal. rewrite eaten_since_Permutation.
  intros [(_ & _ & Hdate) _]%list_elem_of_filter.
  unfold eaten_at__date__gte, eaten_date in Hdate. by destruct (eaten_at meal).
Qed.

Lemma get_fmap_key {V} (T : date → V) (dates : list date) d :
  d ∈ dates → Py.get d ((λ d, (d, T d)) <$> dates) = Some (T d).
Proof.
  induction dates as [|d' dates IH]; [by intros ?%elem_of_nil|].
  rewrite fmap_cons. simpl. case_decide as Hd; [by subst|].
  intros [?|?]%elem_of_cons; [done | by apply IH].
Qed.

Lemma comprehension_totals {B} (g : day_totals → B) (T : date → day_totals)
    (dates dates' : list date) s :
  dates' ⊆ dates →
  comprehension (λ d, data ← getitem (Py.str d) (Py.get d ((λ d, (d, T d)) <$> dates));
                      mret (g data)) dates' s
  = (Ok ((λ d, g (T d)) <$> dates'), s).
Proof.
  induction dates' as [|d dates' IH]; intros Hsub; [done|].
  simpl. rewrite run_bind, run_bind, get_fmap_key by (apply Hsub; left).
  simpl. rewrite run_bind, IH; [done|]. intros x Hx. apply Hsub. by right.
Qed.

Lemma tally_last_7_days now u t s :
  tally (eaten_since u (date_of now - 6) t)
        (Py.dict_of ((λ day, (day, {| total_calories := 0; total_meals := 0 |}))
                       <$> last_7_days now)) s
  = (Ok (daily_totals u t (last_7_days now)), s).
Proof.
  rewrite dict_of_NoDup.
  2:{ rewrite <- list_fmap_compose. rewrite (list_fmap_ext _ id); [|done].
      rewrite list_fmap_id. apply NoDup_last_7_days. }
  rewrite tally_run.
  - do 2 f_equal. rewrite <- list_fmap_compose. unfold daily_totals.
    apply list_fmap_ext. intros i d Hd%list_elem_of_lookup_2%last_7_days_range.
    simpl. rewrite foldl_bump. simpl. unfold calories_on, meals_on.
    rewrite !Z.add_0_l. do 2 f_equal.
    + apply sum_Permutation. by rewrite eaten_since_on.
    + by rewrite eaten_since_on.
  - rewrite <- list_fmap_compose. rewrite (list_fmap_ext _ id); [|done].
    rewrite list_fmap_id. apply NoDup_last_7_days.
  - apply eaten_since_timestamps.
Qed.

Lemma progress_view_run now request s :
  let u := request_user request in
  let dates := last_7_days now in
  let daily_data := daily_totals u (table s) dates in
  let calories_data := (λ d, calories_on u d (table s)) <$> dates in
  let meals_data := (λ d, meals_on u d (table s)) <$> dates in
  progress_view now request s
  = (Ok (if decide (GET request !! "format" = Some "csv")
         then CsvResponse "weekly_progress_report.csv"
                ([CellStr "Date"; CellStr "Calories Consumed"; CellStr "Meals Eaten"]
                 :: ((λ d, [CellDate d; CellInt (calories_on u d (table s));
                            CellInt (meals_on u d (table s))]) <$> dates))
         else render "meals/progress.html"
                (ProgressContext
                   {| dates_json := dates;
                      calories_json := calories_data;
                      meal_counts_json := meals_data;
                      total_calories_week := Py.sum calories_data;
                      total_meals_week := Py.sum meals_data;
                      avg_daily_calories :=
                        if bool_decide (0 < days_tracked calories_data)
                        then Py.sum calories_data `div` days_tracked calories_data
                        else 0;
                      best_day :=
                        if bool_decide (0 < days_tracked calories_data)
                        then closest_day (calculate_tdee (request_profile request)) daily_data
                        else (None, 0) |})), s).
Proof.
  intros u dates daily_data calories_data meals_data.
  subst u dates daily_data calories_data meals_data.
  unfold progress_view. rewrite run_bind.
  change (objects.all s) with (Ok (table s), s). cbv iota beta zeta.
  assert ((λ i, date_of now - 6 + Z.of_nat i) <$> seq 0 7 = last_7_days now) as ->.
  { unfold last_7_days. simpl. repeat f_equal; lia. }
  rewrite run_bind, tally_last_7_days.
  cbv iota beta. unfold daily_totals.
  rewrite run_bind, (comprehension_totals total_calories) by done.
  cbv iota beta. rewrite run_bind, (comprehension_totals total_meals) by done.
  cbv iota beta. cbn [total_calories total_meals]. unfold days_tracked.
  destruct (if bool_decide _ then closest_day _ _ else _)
    as [best_day_date best_day_calories].
  destruct (decide (GET request !! "format" = Some "csv")).
  - rewrite run_ret. reflexivity.
  - rewrite run_ret. reflexivity.
Qed.

(** C5: [progress_view] aggregates over the seven dates that end today.
    The calorie total of a date is the sum of the calories of the meals of
    the requesting user that are marked eaten and whose timestamp falls on
    that date, the meal count of a date is their number, the weekly totals
    are the sums over the seven dates, and the daily average is the weekly
    calorie total floor-divided by the number of dates with a positive
    calorie total, or 0 when there is no such date. *)
Theorem progress_view_aggregates now request s :
  GET request !! "format" ≠ Some "csv" →
  let u := request_user request in
  let today := date_of now in
  let dates := [today - 6; today - 5; today - 4; today - 3; today - 2; today - 1; today] in
  let calories_data := (λ d, calories_on u d (table s)) <$> dates in
  let meals_data := (λ d, meals_on u d (table s)) <$> dates in
  let tracked := Z.of_nat (length (filter (λ c, 0 < c) calories_data)) in
  ∃ c,
    progress_view now request s = (Ok (render "meals/progress.html" (ProgressContext c)), s)
    ∧ dates_json c = dates
    ∧ calories_json c = calories_data
    ∧ meal_counts_json c = meals_data
    ∧ total_calories_week c = Py.sum calories_data
    ∧ total_meals_week c = Py.sum meals_data
    ∧ avg_daily_calories c
      = (if decide (0 < tracked) then Py.sum calories_data `div` tracked else 0).
Proof.
  intros Hformat u today dates calories_data meals_data tracked.
  rewrite progress_view_run, decide_False by done.
  eexists. split; [reflexivity|]. cbn [dates_json calories_json meal_counts_json
    total_calories_week total_meals_week avg_daily_calories].
  repeat split. fold tracked. unfold days_tracked.
  change (last_7_days now) with dates. fold calories_data. fold tracked.
  by rewrite decide_bool_decide.
Qed.

Lemma progress_view_aggregates_witness :
  ∃ c,
    progress_view 100000 (Sample.request "GET" ∅) Sample.db
    = (Ok (render "meals/progress.html" (ProgressContext c)), Sample.db)
    ∧ dates_json c = [-5; -4; -3; -2; -1; 0; 1]
    ∧ calories_json c = [0; 0; 0; 0; 0; 0; 700]
    ∧ meal_counts_json c = [0; 0; 0; 0; 0; 0; 1]
    ∧ total_calories_week c = 700
    ∧ total_meals_week c = 1
    ∧ avg_daily_calories c = 700.
Proof.
  apply (progress_view_aggregates 100000 (Sample.request "GET" ∅) Sample.db).
  by vm_compute.
Defined.



(** * Further properties of the views *)

(** ** The plan page *)

Global Instance pk_le_transitive : Transitive pk_le.
Proof. intros a b c. unfold pk_le. lia. Qed.

Global Instance pk_le_total : Total pk_le.
Proof. intros a b. unfold pk_le. lia. Qed.

Lemma update_NoDup_keys {K V} `{EqDecision K} (k : K) (f : V → V) (d : list (K * V)) :
  NoDup d.*1 →
  Py.update k f d = (λ kv, (kv.1, if decide (k = kv.1) then f kv.2 else kv.2)) <$> d.
Proof.
  induction d as [|[k' v'] d IH]; simpl; [done|].
  intros [Hnotin Hnd]%NoDup_cons. case_decide as Hk.
  - subst k'. f_equal. symmetry. apply fmap_id_on. intros [k'' v''] Hin. simpl.
    rewrite decide_False; [done|]. intros ->. apply Hnotin.
    apply list_elem_of_fmap. by exists (k'', v'').
  - f_equal. by apply IH.
Qed.

Lemma grouping_loop (days : list string) (acc : string → list MealPlan) (l : list MealPlan) :
  NoDup days →
  foldl (λ grouped_meals meal,
           if Py.has_key (day meal) grouped_meals
           then Py.update (day meal) (λ l, l ++ [meal]) grouped_meals
           else grouped_meals)
        ((λ d, (d, acc d)) <$> days) l
  = (λ d, (d, acc d ++ filter (λ meal, day meal = d) l)) <$> days.
Proof.
  intros Hnd. revert acc. induction l as [|meal l IH]; intros acc; simpl.
  - apply list_fmap_ext. intros i d _. by rewrite filter_nil, app_nil_r.
  - assert ((if Py.has_key (day meal) ((λ d, (d, acc d)) <$> days)
             then Py.update (day meal) (λ l, l ++ [meal]) ((λ d, (d, acc d)) <$> days)
             else (λ d, (d, acc d)) <$> days)
            = (λ d, (d, acc d ++ (if decide (day meal = d) then [meal] else []))) <$> days)
      as ->.
    { destruct (Py.has_key _ _) eqn:Hkey.
      - rewrite update_NoDup_keys.
        + rewrite <- list_fmap_compose. apply list_fmap_ext. intros i d _. simpl.
          case_decide; [done | by rewrite app_nil_r].
        + rewrite <- list_fmap_compose. by rewrite (list_fmap_ext _ id), list_fmap_id.
      - apply list_fmap_ext. intros i d Hd. rewrite decide_False; [by rewrite app_nil_r|].
        intros Heq. apply not_true_iff_false in Hkey. apply Hkey, has_key_elem_of.
        rewrite <- list_fmap_compose. rewrite (list_fmap_ext _ id), list_fmap_id; [|done].
        rewrite Heq. by eapply list_elem_of_lookup_2. }
    rewrite (IH (λ d, acc d ++ (if decide (day meal = d) then [meal] else []))).
    apply list_fmap_ext. intros i d _. rewrite filter_cons.
    case_decide; by rewrite <- app_assoc.
Qed.

Lemma StronglySorted_filter {A} (R : relation A) (P : A → Prop) `{∀ x, Decision (P x)}
    (l : list A) :
  StronglySorted R l → StronglySorted R (filter P l).
Proof.
  induction 1 as [|x l _ IH Hx]; [constructor|].
  rewrite filter_cons. case_decide; [|done]. constructor; [done|].
  rewrite Forall_forall in Hx |- *. intros y [_ Hy]%list_elem_of_filter. by apply Hx.
Qed.

Lemma NoDup_days_order : NoDup days_order.
Proof.
  unfold days_order.
  repeat (apply NoDup_cons_2;
          [intros Hin; repeat (apply elem_of_cons in Hin as [Hin|Hin]; [discriminate|]);
           by apply elem_of_nil in Hin|]).
  apply NoDup_nil_2.
Qed.

Lemma meal_plan_view_run request s :
  meal_plan_view request s
  = (Ok (render "meals/meal_plan.html"
           (MealPlanContext
              ((λ d, (d, filter (λ meal, day meal = d)
                           (order_by_pk (objects.filter_user (request_user request)
                                           (table s))))) <$> days_order))), s).
Proof.
  unfold meal_plan_view. rewrite run_bind.
  change (objects.all s) with (Ok (table s), s). cbv iota beta zeta.
  rewrite (grouping_loop days_order (λ _, [])) by apply NoDup_days_order.
  reflexivity.
Qed.

(** X1: the plan page lists the seven week days from Monday to Sunday, and
    under each day exactly the meals of the requesting user stored with
    that day label, by ascending primary key; a meal stored under any other
    label is not shown, and the table is not changed. *)
Theorem meal_plan_view_groups request s :
  ∃ grouped_meals,
    meal_plan_view request s
    = (Ok (render "meals/meal_plan.html" (MealPlanContext grouped_meals)), s)
    ∧ grouped_meals.*1
      = ["Monday"; "Tuesday"; "Wednesday"; "Thursday"; "Friday"; "Saturday"; "Sunday"]
    ∧ ∀ d l, (d, l) ∈ grouped_meals →
        StronglySorted pk_le l
        ∧ l ≡ₚ meals_of_day (request_user request) d (table s).
Proof.
  rewrite meal_plan_view_run. eexists. split; [reflexivity|]. split; [reflexivity|].
  intros d l ([|[|[|[|[|[|[|i]]]]]]] & Hi)%list_elem_of_lookup; simpl in Hi; try done;
    injection Hi as <- <-;
    (split;
     [apply StronglySorted_filter, StronglySorted_merge_sort; apply _
     |unfold order_by_pk, objects.filter_user, meals_of_day;
      rewrite merge_sort_Permutation, list_filter_filter;
      erewrite list_filter_iff; [done|]; intros meal; tauto]).
Qed.

(** ** Primary keys and the rows of other users *)

Lemma created_pks defaults key kws :
  pk <$> created defaults key kws = (λ j, key + Z.of_nat j) <$> seq 0 (length kws).
Proof.
  revert key. induction kws as [|kw kws IH]; intros key; [done|].
  simpl. rewrite IH. f_equal; [f_equal; lia|].
  rewrite <- (fmap_S_seq 0), <- list_fmap_compose.
  apply list_fmap_ext. intros i j _. simpl. lia.
Qed.

Lemma db_wf_after_creates defaults kws s :
  db_wf s → db_wf (after_creates defaults kws s).
Proof.
  intros [Hnd Hlt]. rewrite Forall_forall in Hlt. split; simpl.
  - rewrite fmap_app. apply NoDup_app. split; [done|]. split.
    + intros k (row & -> & Hrow)%list_elem_of_fmap (row' & Hk & Hrow')%list_elem_of_fmap.
      apply elem_of_created in Hrow' as (j & kw & _ & ->). simpl in Hk.
      specialize (Hlt row Hrow). lia.
    + rewrite created_pks. apply NoDup_fmap_2; [|apply NoDup_seq].
      intros i j ?. lia.
  - apply Forall_app. split.
    + apply Forall_forall. intros row Hrow. specialize (Hlt row Hrow). lia.
    + apply Forall_forall. intros row (j & kw & Hj%lookup_lt_Some & ->)%elem_of_created.
      simpl. lia.
Qed.

Lemma db_wf_after_delete u s : db_wf s → db_wf (after_delete u s).
Proof.
  intros [Hnd Hlt]. split; simpl.
  - clear Hlt. induction (table s) as [|row t IH]; [done|].
    rewrite fmap_cons in Hnd. apply NoDup_cons in Hnd as [Hrow Hnd].
    rewrite filter_cons. case_decide; [|by apply IH].
    rewrite fmap_cons. apply NoDup_cons_2; [|by apply IH].
    intros (row' & Hpk & [_ Hin]%list_elem_of_filter)%list_elem_of_fmap.
    apply Hrow, list_elem_of_fmap. by exists row'.
  - rewrite Forall_forall in Hlt |- *. intros row [_ Hrow]%list_elem_of_filter. by apply Hlt.
Qed.

Lemma after_save_pks meal s : pk <$> table (after_save meal s) = pk <$> table s.
Proof.
  simpl. rewrite <- list_fmap_compose. apply list_fmap_ext. intros i row _. simpl.
  by case_bool_decide.
Qed.

Lemma db_wf_after_save meal s :
  meal ∈ table s ∨ (∃ row, row ∈ table s ∧ pk row = pk meal) → db_wf s →
  db_wf (after_save meal s).
Proof.
  intros Hmeal [Hnd Hlt]. split; [by rewrite after_save_pks|].
  rewrite Forall_forall in Hlt. apply Forall_forall.
  intros row' [-> | Hrow']%elem_of_after_save; [|by apply Hlt].
  destruct Hmeal as [?|(row & ? & <-)]; by apply Hlt.
Qed.

Lemma filter_fmap_same {A} (P : A → Prop) `{∀ x, Decision (P x)} (f : A → A) (l : list A) :
  (∀ x, x ∈ l → (P x → f x = x) ∧ (¬ P x → ¬ P (f x))) →
  filter P (f <$> l) = filter P l.
Proof.
  induction l as [|x l IH]; intros Hf; [done|].
  rewrite fmap_cons, !filter_cons.
  destruct (Hf x) as [Hkeep Hdrop]; [left|].
  rewrite IH by (intros y Hy; apply Hf; by right).
  destruct (decide (P x)) as [Hx|Hx].
  - rewrite (Hkeep Hx). by rewrite decide_True.
  - by rewrite decide_False by auto.
Qed.

Lemma others_after_save meal s u :
  NoDup (pk <$> table s) →
  (∃ original, original ∈ table s ∧ pk original = pk meal ∧ user original = u) →
  user meal = u →
  filter (λ row, user row ≠ u) (table (after_save meal s))
  = filter (λ row, user row ≠ u) (table s).
Proof.
  intros Hnd (original & Hin & Hpk & Hu) Hmeal. simpl.
  apply filter_fmap_same. intros row Hrow. case_bool_decide as Hrowpk; [|done].
  assert (row = original) as ->.
  { apply list_elem_of_lookup in Hrow as [i Hi]. apply list_elem_of_lookup in Hin as [j Hj].
    assert (i = j) as ->; [|congruence].
    eapply NoDup_lookup; [exact Hnd| |]; rewrite list_lookup_fmap.
    - by rewrite Hi.
    - rewrite Hj. simpl. congruence. }
  split; [by intros ? | by intros _ ?].
Qed.

Lemma others_after_creates defaults kws s u :
  Forall (λ kw, objects.kw_user kw = u) kws →
  filter (λ row, user row ≠ u) (table (after_creates defaults kws s))
  = filter (λ row, user row ≠ u) (table s).
Proof.
  intros Hkws. simpl. rewrite filter_app, (filter_none _ (created _ _ _)), app_nil_r; [done|].
  apply Forall_forall. intros row (j & kw & Hj & ->)%elem_of_created. simpl.
  rewrite Forall_forall in Hkws. intros Hne. apply Hne, Hkws.
  by eapply list_elem_of_lookup_2.
Qed.

Lemma added_meal_user u data kw : added_meal u data = inr kw → objects.kw_user kw = u.
Proof.
  unfold added_meal.
  destruct (data_day data), (data_meal_type data), (data_name data), (data_recipe_id data);
    intros [= <-]; done.
Qed.

(** X2: every view keeps the primary keys of the table distinct and below
    the next key, and on such a table no view changes, removes or adds a
    row of a user other than the requesting one. *)
Theorem views_keep_other_users_rows settings api defaults now v request s :
  db_wf s →
  let s' := (call settings api defaults now v request s).2 in
  db_wf s'
  ∧ filter (λ row, user row ≠ request_user request) (table s')
    = filter (λ row, user row ≠ request_user request) (table s).
Proof.
  intros Hwf s'. subst s'. destruct v as [| |meal_id|meal_id| | | |]; cbn [call].
  - (* generate_meal_plan *)
    destruct (plan_data_for settings api request ≫= week) as [w|] eqn:Hw.
    + destruct (recipes_details_for settings api (gather w).1)
        as [[|recipe recipes_details]|] eqn:Hd.
      * by rewrite (generate_no_details _ _ _ _ _ w Hw) by by right.
      * rewrite (generate_success _ _ _ _ _ _ _ _ Hw Hd). cbn [snd].
        split; [by apply db_wf_after_creates, db_wf_after_delete|].
        cbn [flash table]. fold (table (after_creates defaults
          (plan_kwargs (request_user request) (details_map_of (recipe :: recipes_details))
             (gather w).2) (after_delete (request_user request) s))).
        rewrite others_after_creates.
        -- simpl. apply filter_all, Forall_forall. by intros row [? _]%list_elem_of_filter.
        -- apply Forall_forall. intros kw Hkw.
           by apply elem_of_plan_kwargs in Hkw as (? & ? & ? & ? & ? & _ & _ & _ & ->).
      * by rewrite (generate_no_details _ _ _ _ _ w Hw) by by left.
    + by rewrite (generate_no_plan _ _ _ _ _ Hw).
  - by rewrite (read_only_meal_plan_view request s).
  - (* replace_meal *)
    rewrite replace_meal_run.
    destruct (String.eqb _ _); [|done].
    destruct (objects.get _ _ _) as [original|] eqn:Hget; [|done].
    destruct (replacement_for _ _ _) as [data|]; [|done].
    destruct (_ || _); [|done].
    destruct (results_or_recipes data) as [[|new_recipe rest]|]; try done.
    apply get_Some in Hget as (Hin & Hpk & Hu). cbn [snd]. split.
    + apply db_wf_after_save; [|done]. right. by exists original.
    + destruct Hwf as [Hnd _]. apply others_after_save; [done| |done]. by exists original.
  - (* toggle_meal_eaten *)
    rewrite toggle_meal_eaten_run.
    destruct (String.eqb _ _); [|done].
    destruct (objects.get _ _ _) as [meal|] eqn:Hget; [|done].
    apply get_Some in Hget as (Hin & Hpk & Hu). cbn [snd]. split.
    + apply db_wf_after_save; [|done]. right. by exists meal.
    + destruct Hwf as [Hnd _]. apply others_after_save; [done| |done]. by exists meal.
  - by rewrite (read_only_discover_meals settings api request s).
  - by rewrite (read_only_grocery_list settings api request s).
  - by rewrite (read_only_progress_view now request s).
  - (* add_meal_to_plan *)
    rewrite add_meal_to_plan_run.
    destruct (String.eqb _ _); [|done].
    destruct (body_json request) as [msg|data]; [done|].
    destruct (added_meal _ _) as [e|kw] eqn:Hkw; [done|]. cbn [snd]. split.
    + by apply db_wf_after_creates.
    + apply others_after_creates. repeat constructor. by eapply added_meal_user.
Qed.

Lemma db_wf_sample : db_wf Sample.db.
Proof.
  split; simpl.
  - repeat (apply NoDup_cons_2;
            [intros Hin; repeat (apply elem_of_cons in Hin as [Hin|Hin]; [discriminate|]);
             by apply elem_of_nil in Hin|]).
    apply NoDup_nil_2.
  - by repeat constructor.
Qed.

Lemma views_keep_other_users_rows_witness :
  let s' := (call Sample.settings Sample.api Sample.defaults 100000 GenerateMealPlan
               (Sample.request "GET" ∅) Sample.db).2 in
  db_wf s' ∧ filter (λ row, user row ≠ 7) (table s') = [Sample.row 2 8 None 500].
Proof.
  apply (views_keep_other_users_rows Sample.settings Sample.api Sample.defaults 100000
           GenerateMealPlan (Sample.request "GET" ∅) Sample.db db_wf_sample).
Defined.

(** ** Adding a meal *)



(** ** What the plan page shows after a change *)

Lemma pk_injective (l : list MealPlan) x y :
  NoDup (pk <$> l) → x ∈ l → y ∈ l → pk x = pk y → x = y.
Proof.
  intros Hnd [i Hi]%list_elem_of_lookup [j Hj]%list_elem_of_lookup Hpk.
  assert (i = j) as ->; [|congruence].
  eapply NoDup_lookup; [exact Hnd| |]; rewrite list_lookup_fmap.
  - by rewrite Hi.
  - rewrite Hj. simpl. congruence.
Qed.

Lemma sorted_by_pk_unique (l1 l2 : list MealPlan) :
  NoDup (pk <$> l1) → StronglySorted pk_le l1 → StronglySorted pk_le l2 → l1 ≡ₚ l2 →
  l1 = l2.
Proof.
  intros Hnd Hs1 Hs2 Hperm. apply (StronglySorted_unique_strong pk_le); try done.
  intros x y Hx Hy Hxy Hyx. unfold pk_le in *.
  apply (pk_injective l1); [done | done | by rewrite Hperm | lia].
Qed.

Lemma NoDup_pk_sublist (P : MealPlan → Prop) `{∀ x, Decision (P x)} (l : list MealPlan) :
  NoDup (pk <$> l) → NoDup (pk <$> filter P l).
Proof.
  induction l as [|row t IH]; [done|].
  rewrite fmap_cons. intros [Hrow Hnd]%NoDup_cons.
  rewrite filter_cons. case_decide; [|by apply IH].
  rewrite fmap_cons. apply NoDup_cons_2; [|by apply IH].
  intros (row' & Hpk & [_ Hin]%list_elem_of_filter)%list_elem_of_fmap.
  apply Hrow, list_elem_of_fmap. by exists row'.
Qed.

Lemma meal_plan_view_plan_page request s :
  meal_plan_view request s
  = (Ok (render "meals/meal_plan.html"
           (MealPlanContext (plan_page (request_user request) (table s)))), s).
Proof. apply meal_plan_view_run. Qed.

(** The sorted rows of a day when [row], whose key is above all the
    others, is appended to the table. *)
Lemma plan_page_snoc u (t : list MealPlan) (row : MealPlan) :
  NoDup (pk <$> t) → Forall (λ r, pk r < pk row) t → user row = u →
  plan_page u (t ++ [row])
  = (λ dl, (dl.1, if decide (day row = dl.1) then dl.2 ++ [row] else dl.2)) <$> plan_page u t.
Proof.
  intros Hnd Hlt Hu. unfold plan_page. rewrite <- list_fmap_compose.
  apply list_fmap_ext. intros i d _. simpl. f_equal.
  assert (NoDup (pk <$> (t ++ [row]))) as Hnd'.
  { rewrite fmap_app. apply NoDup_app. split; [done|]. split; [|apply NoDup_singleton].
    intros k (r & -> & Hr)%list_elem_of_fmap (r' & Hk & Hr')%list_elem_of_fmap.
    apply list_elem_of_singleton in Hr' as ->.
    rewrite Forall_forall in Hlt. specialize (Hlt r Hr). simpl in Hlt. lia. }
  apply sorted_by_pk_unique.
  - apply NoDup_pk_sublist. unfold order_by_pk.
    rewrite merge_sort_Permutation. by apply NoDup_pk_sublist.
  - apply StronglySorted_filter, StronglySorted_merge_sort; apply _.
  - assert (StronglySorted pk_le
              (filter (λ meal, day meal = d) (order_by_pk (objects.filter_user u t))))
      as Hsorted by (apply StronglySorted_filter, StronglySorted_merge_sort; apply _).
    simpl. case_decide; [|exact Hsorted].
    apply StronglySorted_app. split_and!; [| exact Hsorted | repeat constructor].
    intros x y [_ Hx]%list_elem_of_filter ->%list_elem_of_singleton.
    unfold order_by_pk in Hx. rewrite merge_sort_Permutation in Hx.
    apply list_elem_of_filter in Hx as [_ Hx].
    rewrite Forall_forall in Hlt. specialize (Hlt x Hx). unfold pk_le. lia.
  - simpl. unfold order_by_pk, objects.filter_user.
    destruct (decide (day row = d)) as [Hd|Hd];
      rewrite !merge_sort_Permutation, !list_filter_filter, filter_app, filter_cons,
        filter_nil.
    + by rewrite decide_True.
    + rewrite decide_False by tauto. by rewrite app_nil_r.
Qed.

(** X4: on a well-formed table, a meal added to the plan appears at the end
    of the list of its day on the plan page, and the other lists stay as
    they were; a meal added under a label that is not one of the seven day
    names (such as a lower-case "monday") is stored but shown nowhere. *)
Theorem added_meal_on_plan_page defaults request s s' :
  db_wf s →
  add_meal_to_plan defaults request s = (Ok (JsonResponse [("success", JBool true)]), s') →
  ∃ row,
    table s' = table s ++ [row]
    ∧ user row = request_user request
    ∧ plan_page (request_user request) (table s')
      = (λ dl, (dl.1, if decide (day row = dl.1) then dl.2 ++ [row] else dl.2))
          <$> plan_page (request_user request) (table s)
    ∧ (day row ∉ days_order →
       (meal_plan_view request s').1 = (meal_plan_view request s).1).
Proof.
  intros [Hnd Hlt]. rewrite add_meal_to_plan_run.
  destruct (String.eqb _ _); [|done].
  destruct (body_json request) as [msg|data]; [done|].
  destruct (added_meal _ _) as [e|kw] eqn:Hkw; [done|].
  intros [= <-]. exists (objects.new_row defaults (next_pk s) kw).
  apply added_meal_user in Hkw.
  assert (plan_page (request_user request) (table s ++ [objects.new_row defaults (next_pk s) kw])
          = (λ dl, (dl.1, if decide (day (objects.new_row defaults (next_pk s) kw) = dl.1)
                          then dl.2 ++ [objects.new_row defaults (next_pk s) kw] else dl.2))
              <$> plan_page (request_user request) (table s)) as Hpage
    by by apply plan_page_snoc.
  split; [done|]. split; [done|]. split; [exact Hpage|].
  intros Hday. rewrite !meal_plan_view_plan_page. cbn [fst]. do 3 f_equal.
  change (table (after_creates defaults [kw] s))
    with (table s ++ [objects.new_row defaults (next_pk s) kw]).
  rewrite Hpage. apply fmap_id_on. intros [d l] Hdl. simpl.
  rewrite decide_False; [done|]. intros Heq. apply Hday.
  simpl in Heq |- *. rewrite Heq.
  unfold plan_page in Hdl. by apply list_elem_of_fmap in Hdl as (d' & [= -> _] & ?).
Qed.

Lemma added_meal_on_plan_page_witness :
  let s' := (add_meal_to_plan Sample.defaults (Demo.add_request "monday") Sample.db).2 in
  length (table s') = 4%nat
  ∧ (meal_plan_view (Demo.add_request "monday") s').1
    = (meal_plan_view (Demo.add_request "monday") Sample.db).1.
Proof.
  destruct (added_meal_on_plan_page Sample.defaults (Demo.add_request "monday") Sample.db
              (add_meal_to_plan Sample.defaults (Demo.add_request "monday") Sample.db).2
              db_wf_sample eq_refl) as (row & Htable & _ & _ & Hhidden).
  split; [reflexivity|]. apply Hhidden.
  vm_compute in Htable. injection Htable as <-.
  intros Hin. repeat (apply elem_of_cons in Hin as [Hin|Hin]; [discriminate|]).
  by apply elem_of_nil in Hin.
Defined.

Lemma created_sorted defaults key kws : StronglySorted pk_le (created defaults key kws).
Proof.
  revert key. induction kws as [|kw kws IH]; intros key; simpl; constructor; [apply IH|].
  apply Forall_forall. intros row (j & kw' & _ & ->)%elem_of_created.
  unfold pk_le. simpl. lia.
Qed.

Lemma created_NoDup defaults key kws : NoDup (pk <$> created defaults key kws).
Proof.
  rewrite created_pks. apply NoDup_fmap_2; [|apply NoDup_seq]. intros i j ?. lia.
Qed.

(** X5: after a successful [generate_meal_plan] the plan page of the user
    shows nothing but the rows of the new plan: under each day name the new
    rows stored with that label, in the order in which they were created
    (the order of the days and meals in the answer of the service). *)
Theorem generated_plan_on_plan_page settings api defaults request s w recipe recipes_details :
  plan_data_for settings api request ≫= week = Some w →
  recipes_details_for settings api (gather w).1 = Some (recipe :: recipes_details) →
  let s' := (generate_meal_plan settings api defaults request s).2 in
  let rows := generated_rows defaults request s w (recipe :: recipes_details) in
  table s' = filter (λ row, user row ≠ request_user request) (table s) ++ rows
  ∧ (meal_plan_view request s').1
    = Ok (render "meals/meal_plan.html"
            (MealPlanContext ((λ d, (d, filter (λ meal, day meal = d) rows)) <$> days_order))).
Proof.
  intros Hw Hd s' rows.
  destruct (generate_success_state settings api defaults request s w recipe recipes_details
              Hw Hd) as (_ & Htable & _ & _).
  split; [exact Htable|]. rewrite meal_plan_view_plan_page. cbn [fst]. do 3 f_equal.
  unfold plan_page. subst s'. rewrite Htable. fold rows.
  assert (objects.filter_user (request_user request)
            (filter (λ row, user row ≠ request_user request) (table s) ++ rows) = rows) as ->.
  { unfold objects.filter_user. rewrite filter_app, filter_none, (filter_all _ rows); [done| |].
    - apply Forall_forall. intros row Hrow.
      by destruct (generated_rows_user _ _ _ _ _ _ Hrow) as [? _].
    - apply Forall_forall. by intros row [? _]%list_elem_of_filter. }
  assert (order_by_pk rows = rows) as ->; [|done].
  apply sorted_by_pk_unique.
  - unfold order_by_pk. rewrite merge_sort_Permutation. apply created_NoDup.
  - apply StronglySorted_merge_sort; apply _.
  - apply created_sorted.
  - apply merge_sort_Permutation.
Qed.

Lemma generated_plan_on_plan_page_witness :
  (meal_plan_view (Sample.request "GET" ∅)
     (generate_meal_plan Sample.settings Sample.api Sample.defaults (Sample.request "GET" ∅)
        Sample.db).2).1
  = Ok (render "meals/meal_plan.html"
          (MealPlanContext
             ((λ d, (d, filter (λ meal, day meal = d)
                          (generated_rows Sample.defaults (Sample.request "GET" ∅) Sample.db
                             [("mONDAY", {| meals := [ {| stub_id := 10 |}; {| stub_id := 11 |};
                                                       {| stub_id := 12 |}; {| stub_id := 11 |} ] |})]
                             [Sample.soup])))
                <$> days_order))).
Proof.
  apply (generated_plan_on_plan_page Sample.settings Sample.api Sample.defaults
           (Sample.request "GET" ∅) Sample.db _ Sample.soup [] eq_refl eq_refl).
Defined.

(** ** Toggling twice *)

Lemma get_after_save meal_id u meal meal' s :
  objects.get meal_id u (table s) = Some meal →
  pk meal' = meal_id → user meal' = u →
  objects.get meal_id u (table (after_save meal' s)) = Some meal'.
Proof.
  intros Hget Hpk Hu. unfold objects.get in *. simpl.
  revert Hget. generalize (table s). intros t.
  induction t as [|row t IH]; [done|].
  rewrite fmap_cons. simpl. intros Hget.
  destruct (decide (pk row = pk meal')) as [Hrow|Hrow].
  - rewrite (bool_decide_eq_true_2 _ Hrow).
    by rewrite bool_decide_eq_true_2.
  - rewrite (bool_decide_eq_false_2 _ Hrow).
    rewrite bool_decide_eq_false_2 in Hget |- * by (intros [? _]; congruence).
    by apply IH.
Qed.

(** X6: two toggles of the same meal leave its eaten flag as it was, and
    the table differs from the original at most in the timestamp of that
    meal: none if the meal was not eaten, the time of the second toggle if
    it was (the time at which it was first marked eaten is lost).  On a
    well-formed table, toggling a meal that is not eaten and has no
    timestamp twice gives back the original table. *)
Theorem toggle_meal_eaten_twice now1 now2 request meal_id s meal :
  method request = "POST" →
  objects.get meal_id (request_user request) (table s) = Some meal →
  let s1 := (toggle_meal_eaten now1 request meal_id s).2 in
  let out := toggle_meal_eaten now2 request meal_id s1 in
  let meal2 :=
    {| pk := pk meal; user := user meal; day := day meal; meal_type := meal_type meal;
       meal_name := meal_name meal; spoonacular_id := spoonacular_id meal;
       calories := calories meal; protein := protein meal; carbs := carbs meal;
       fats := fats meal; image_url := image_url meal; eaten := eaten meal;
       eaten_at := if eaten meal then Some now2 else None |} in
  out.1 = Ok (JsonResponse [("success", JBool true); ("eaten", JBool (eaten meal))])
  ∧ table out.2 = (λ row, if bool_decide (pk row = meal_id) then meal2 else row) <$> table s
  ∧ (db_wf s → eaten meal = false → eaten_at meal = None → table out.2 = table s).
Proof.
  intros Hpost Hget s1 out meal2. subst s1 out.
  apply get_Some in Hget as Hmeal. destruct Hmeal as (Hin & Hpk & Hu).
  rewrite (toggle_meal_eaten_run now1), (proj2 (String.eqb_eq _ _) Hpost), Hget. cbn [snd].
  rewrite (toggle_meal_eaten_run now2), (proj2 (String.eqb_eq _ _) Hpost).
  rewrite (get_after_save meal_id (request_user request) meal (toggled now1 meal) s)
    by done.
  assert (toggled now2 (toggled now1 meal) = meal2) as Htwice.
  { unfold toggled, meal2. simpl. by destruct (eaten meal). }
  assert (table (after_save (toggled now2 (toggled now1 meal))
                   (after_save (toggled now1 meal) s))
          = (λ row, if bool_decide (pk row = meal_id) then meal2 else row) <$> table s)
    as Htable.
  { simpl. rewrite <- list_fmap_compose. apply list_fmap_ext. intros i row _. simpl.
    rewrite Hpk. fold (toggled now1 meal). fold (toggled now2 (toggled now1 meal)).
    rewrite Htwice. destruct (decide (pk row = meal_id)) as [Hrow|Hrow].
    - rewrite !(bool_decide_eq_true_2 _ Hrow). by rewrite bool_decide_eq_true_2.
    - by rewrite !(bool_decide_eq_false_2 _ Hrow). }
  cbn [fst snd]. split; [|split].
  - unfold toggle_json. simpl. by rewrite negb_involutive.
  - exact Htable.
  - intros [Hnd _] Heaten Hstamp. rewrite Htable. apply fmap_id_on.
    intros row Hrow. case_bool_decide as Hrowpk; [|done].
    assert (row = meal) as -> by (apply (pk_injective (table s)); [done..|congruence]).
    unfold meal2. rewrite Heaten. destruct meal. simpl in *. by subst.
Qed.

Lemma toggle_meal_eaten_twice_witness :
  let s1 := (toggle_meal_eaten 100000 (Sample.request "POST" ∅) 3 Sample.db).2 in
  let out := toggle_meal_eaten 200000 (Sample.request "POST" ∅) 3 s1 in
  out.1 = Ok (JsonResponse [("success", JBool true); ("eaten", JBool true)])
  ∧ table out.2
    = [Sample.row 1 7 None 400; Sample.row 2 8 None 500; Sample.row 3 7 (Some 200000) 700].
Proof.
  destruct (toggle_meal_eaten_twice 100000 200000 (Sample.request "POST" ∅) 3 Sample.db
              (Sample.row 3 7 (Some 100000) 700) eq_refl eq_refl) as (Hout & Htable & _).
  split; [exact Hout | exact Htable].
Defined.

(** ** The best day *)





(** ** The recipes to discover *)

Lemma round_half_even_nearest (q : Q) :
  (Qabs (inject_Z (Py.round_half_even q) - q) <= 1 # 2)%Q.
Proof.
  destruct q as [n d]. unfold Py.round_half_even. cbn [Qnum Qden].
  pose proof (Z.div_mod n (Z.pos d) ltac:(lia)) as Hdiv.
  pose proof (Z.mod_pos_bound n (Z.pos d) ltac:(lia)) as Hmod.
  set (f := n `div` Z.pos d) in *. set (m := n `mod` Z.pos d) in *.
  apply Qabs_Qle_condition.
  assert (∀ z : Z, (- (1 # 2) <= inject_Z z - (n # d))%Q ↔ 2 * n - Z.pos d ≤ 2 * z * Z.pos d)
    as Hlow.
  { intros z. unfold Qle, Qminus, Qplus, Qopp, inject_Z. cbn [Qnum Qden]. lia. }
  assert (∀ z : Z, (inject_Z z - (n # d) <= 1 # 2)%Q ↔ 2 * z * Z.pos d ≤ 2 * n + Z.pos d)
    as Hhigh.
  { intros z. unfold Qle, Qminus, Qplus, Qopp, inject_Z. cbn [Qnum Qden]. lia. }
  rewrite Hlow, Hhigh.
  destruct (Z.compare_spec (2 * m) (Z.pos d)); [destruct (Z.even f)|..]; nia.
Qed.

Lemma round_nearest (x : Py.number) :
  (Qabs (inject_Z (Py.round x) - Py.to_Q x) <= 1 # 2)%Q.
Proof.
  destruct x as [z|q]; [|apply round_half_even_nearest].
  cbn [Py.round Py.to_Q]. apply Qabs_Qle_condition.
  unfold Qle, Qminus, Qplus, Qopp, inject_Z. cbn [Qnum Qden]. lia.
Qed.

Lemma discover_loop (hits : list recipe_hit) (shown : list recipe_card) s :
  for_fold hits shown (λ recipes recipe,
    let nutrition := nutrients_of (hit_nutrition recipe) in
    let calories := amount_of "Calories" nutrition (Py.PyInt 0) in
    image ← getitem "image" (hit_image recipe);
    mret (recipes ++ [{| card_id := hit_id recipe; card_title := hit_title recipe;
                         card_image := image;
                         card_readyInMinutes := readyInMinutes recipe;
                         card_servings := servings recipe;
                         card_calories := Py.round calories |}])) s
  = (if decide (Forall (λ recipe, is_Some (hit_image recipe)) hits)
     then Ok (shown ++ omap (λ recipe,
                image ← hit_image recipe;
                Some {| card_id := hit_id recipe; card_title := hit_title recipe;
                        card_image := image;
                        card_readyInMinutes := readyInMinutes recipe;
                        card_servings := servings recipe;
                        card_calories :=
                          Py.round (amount_of "Calories" (nutrients_of (hit_nutrition recipe))
                                      (Py.PyInt 0)) |}) hits)
     else Raise (KeyError "image"), s).
Proof.
  revert shown. induction hits as [|recipe hits IH]; intros shown.
  - cbn [for_fold omap list_omap]. rewrite run_ret, app_nil_r.
    destruct (decide _) as [_|Hnot]; [done|]. destruct Hnot. constructor.
  - cbn [for_fold]. rewrite run_bind. cbv zeta.
    destruct (hit_image recipe) as [image|] eqn:Himage.
    + rewrite run_bind. cbn [getitem]. rewrite run_ret. cbv iota beta.
      rewrite run_ret. cbv iota beta. rewrite IH.
      cbn [omap list_omap]. rewrite Himage. cbn [mbind option_bind].
      rewrite <- app_assoc. cbn [app].
      destruct (decide (Forall _ hits)) as [Hall|Hnot];
        destruct (decide (Forall _ (recipe :: hits))) as [Hall'|Hnot']; try done.
      * destruct Hnot'. constructor; [by rewrite Himage|done].
      * destruct Hnot. by inversion Hall'.
    + rewrite run_bind. cbn [getitem].
      destruct (decide (Forall _ (recipe :: hits))) as [[[? Hsome] _]%Forall_cons|];
        [congruence|done].
Qed.

(** X8: [discover_meals] stores nothing and sends one search for twelve
    Indian recipes with their nutrition: the diet is absent or
    "low glycemic", the intolerances are a selection of "gluten" and
    "dairy" in that order, and a profile without health issues asks for
    neither.  When every hit of the answer has an image the page shows one
    card per hit, in the order of the answer, with the identifier, title,
    image, preparation time and servings of the hit and the "Calories"
    amount (0 when absent) rounded to a nearest integer; a failed search
    gives the page without cards.  A hit without an image makes the view
    raise [KeyError] instead of answering. *)
Theorem discover_meals_cards settings api request s :
  ∃ diet intolerances,
    (diet = PNone ∨ diet = PStr "low glycemic")
    ∧ intolerances ∈ [""; "gluten"; "dairy"; "gluten,dairy"]
    ∧ (health_issues (request_profile request) = None
       ∨ health_issues (request_profile request) = Some ""
       → diet = PNone ∧ intolerances = "")
    ∧ let hits :=
        hits_of (recipes_complexSearch api
                   [("number", PNum (Py.PyInt 12)); ("addRecipeNutrition", PStr "true");
                    ("cuisine", PStr "Indian"); ("diet", diet);
                    ("intolerances", PStr intolerances);
                    ("apiKey", PStr (SPOONACULAR_API_KEY settings))]) in
      let out := discover_meals settings api request s in
      (∃ cards,
         out = (Ok (render "meals/discover.html" (DiscoverContext cards)), s)
         ∧ Forall2 shows hits cards)
      ∨ (Exists (λ recipe, hit_image recipe = None) hits
         ∧ out = (Raise (KeyError "image"), s)).
Proof.
  unfold discover_meals.
  set (issues := match health_issues (request_profile request) with
                 | Some (String _ _ as text) => Py.lower text
                 | _ => ""
                 end).
  set (diet := if Py.contains "diabetes" issues then PStr "low glycemic" else PNone).
  set (intolerances :=
         Py.join ","
           (if Py.contains "dairy" issues || Py.contains "lactose" issues
            then (if Py.contains "gluten" issues then [] ++ ["gluten"] else []) ++ ["dairy"]
            else (if Py.contains "gluten" issues then [] ++ ["gluten"] else []))).
  exists diet, intolerances. split; [|split; [|split]].
  - subst diet. destruct (Py.contains "diabetes" issues); auto.
  - subst intolerances.
    destruct (Py.contains "dairy" issues || Py.contains "lactose" issues),
      (Py.contains "gluten" issues); cbn; set_solver.
  - intros Hnone. assert (issues = "") as Hissues.
    { subst issues. by destruct Hnone as [-> | ->]. }
    subst diet intolerances. by rewrite Hissues.
  - cbv zeta. rewrite run_bind.
    unfold fetch, _fetch_from_spoonacular. cbn [Py.setitem]. 
    repeat (rewrite decide_False by done). cbn [Py.setitem].
    fold diet intolerances.
    set (answer := recipes_complexSearch api _).
    assert (∀ hits,
              Forall (λ recipe, is_Some (hit_image recipe)) hits →
              Forall2 shows hits
                (omap (λ recipe,
                   image ← hit_image recipe;
                   Some {| card_id := hit_id recipe; card_title := hit_title recipe;
                           card_image := image;
                           card_readyInMinutes := readyInMinutes recipe;
                           card_servings := servings recipe;
                           card_calories :=
                             Py.round (amount_of "Calories"
                                         (nutrients_of (hit_nutrition recipe))
                                         (Py.PyInt 0)) |}) hits)) as Hshows.
    { induction 1 as [|recipe hits [image Himage] _ IH]; [constructor|].
      cbn [omap list_omap]. rewrite Himage. cbn [mbind option_bind].
      constructor; [|done]. repeat split; try done. apply round_nearest. }
    destruct answer as [[[hits|] other]|why]; cbn [hits_of results default mbind option_bind].
    + rewrite discover_loop.
      destruct (decide (Forall _ hits)) as [Hall|Hnot].
      * left. eexists. rewrite run_ret. split; [reflexivity|]. by apply Hshows.
      * right. split; [|done]. apply not_Forall_Exists in Hnot; [|apply _].
        eapply Exists_impl; [exact Hnot|]. intros recipe Hno. unfold compose in Hno.
        destruct (hit_image recipe); [|done]. destruct Hno. eauto.
    + left. exists []. rewrite !run_ret. split; [reflexivity|constructor].
    + left. exists []. rewrite !run_ret. split; [reflexivity|constructor].
Qed.

(** ** The grocery list *)

Lemma planned_recipe_ids_nil (u : user_id) (t : list MealPlan) :
  Forall (λ meal, user meal = u →
                  spoonacular_id meal = None ∨ spoonacular_id meal = Some 0) t →
  planned_recipe_ids (objects.filter_user u t) = [].
Proof.
  unfold planned_recipe_ids, objects.filter_user.
  induction 1 as [|meal t Hmeal _ IH]; [done|].
  rewrite filter_cons. case_decide as Huser; [|done].
  cbn [omap list_omap]. rewrite IH.
  destruct (Hmeal Huser) as [-> | ->]; [done|]. by rewrite decide_True.
Qed.

(** X9: the grocery page and the grocery export agree.  A request without
    [format=csv] gets the page with a strictly ascending list of names and
    stores nothing; the same user asking for the CSV gets the header row
    followed by exactly the names of the page, one per row.  The list is
    empty when no meal of the user carries a recipe identifier (none, or
    0), whatever the service would answer, and when the request to the
    service fails. *)
Theorem grocery_list_page settings api request s :
  GET request !! "format" ≠ Some "csv" →
  let u := request_user request in
  ∃ shopping_list,
    grocery_list settings api request s
    = (Ok (render "meals/grocery_list.html" (GroceryContext shopping_list)), s)
    ∧ StronglySorted (λ a b, String.ltb a b = true) shopping_list
    ∧ (∀ request',
         request_user request' = u → GET request' !! "format" = Some "csv" →
         grocery_list settings api request' s
         = (Ok (CsvResponse "grocery_list.csv"
                  ([CellStr "Ingredient"] :: ((λ item, [CellStr item]) <$> shopping_list))), s))
    ∧ (Forall (λ meal, user meal = u →
                       spoonacular_id meal = None ∨ spoonacular_id meal = Some 0) (table s) →
       shopping_list = [])
    ∧ ((∀ query, ∃ why, recipes_informationBulk api query = RequestException why) →
       shopping_list = []).
Proof.
  intros Hformat u. rewrite grocery_list_run, decide_False by done. fold u.
  eexists. split; [reflexivity|]. split; [apply sorted_elements|]. split; [|split].
  - intros request' Huser Hcsv.
    by rewrite grocery_list_run, decide_True, Huser by done.
  - intros Hnone. unfold planned_recipes. by rewrite planned_recipe_ids_nil.
  - intros Hfails. unfold planned_recipes, fetch, _fetch_from_spoonacular.
    destruct (planned_recipe_ids _) as [|z ids]; [done|].
    by destruct (Hfails (Py.setitem "apiKey" (PStr (SPOONACULAR_API_KEY settings))
                           [("ids", PStr (Py.join "," (Py.str <$> z :: ids)))]))
      as [why ->].
Qed.

Lemma grocery_list_page_witness :
  ∃ shopping_list,
    grocery_list Sample.settings Sample.api (Sample.request "GET" ∅) Sample.db
    = (Ok (render "meals/grocery_list.html" (GroceryContext shopping_list)), Sample.db)
    ∧ StronglySorted (λ a b, String.ltb a b = true) shopping_list
    ∧ (∀ request',
         request_user request' = 7 → GET request' !! "format" = Some "csv" →
         grocery_list Sample.settings Sample.api request' Sample.db
         = (Ok (CsvResponse "grocery_list.csv"
                  ([CellStr "Ingredient"] :: ((λ item, [CellStr item]) <$> shopping_list))),
            Sample.db))
    ∧ (Forall (λ meal, user meal = 7 →
                       spoonacular_id meal = None ∨ spoonacular_id meal = Some 0)
              (table Sample.db) →
       shopping_list = [])
    ∧ ((∀ query, ∃ why,
          recipes_informationBulk Sample.api query = RequestException why) →
       shopping_list = []).
Proof.
  apply (grocery_list_page Sample.settings Sample.api (Sample.request "GET" ∅) Sample.db).
  by vm_compute.
Defined.

(** ** Generating a plan and the weekly progress *)

Lemma eaten_on_generated settings api defaults request s w recipe recipes_details d :
  default_eaten defaults = false →
  plan_data_for settings api request ≫= week = Some w →
  recipes_details_for settings api (gather w).1 = Some (recipe :: recipes_details) →
  eaten_on (request_user request) d
    (table (generate_meal_plan settings api defaults request s).2) = [].
Proof.
  intros Hdefault Hw Hd.
  destruct (generate_success_state settings api defaults request s w recipe recipes_details
              Hw Hd) as (_ & -> & _).
  unfold eaten_on. apply filter_none, Forall_app. split.
  - apply Forall_forall. intros row [Huser _]%list_elem_of_filter. tauto.
  - apply Forall_forall. intros row (j & kw & _ & ->)%elem_of_created.
    cbn [eaten objects.new_row]. rewrite Hdefault. intros (_ & ? & _). done.
Qed.

(** X10: a freshly generated plan starts the week of its user from zero.
    When new rows are created with the eaten flag off, a successful run of
    [generate_meal_plan] leaves no eaten meal of the user on any date, and
    the progress page of that user then shows zero calories and zero meals
    on each of the seven dates, zero totals, a zero average and no best
    day: the meals eaten before the run are no longer counted. *)
Theorem generate_meal_plan_resets_progress
    settings api defaults now request request' s w recipe recipes_details :
  default_eaten defaults = false →
  plan_data_for settings api request ≫= week = Some w →
  recipes_details_for settings api (gather w).1 = Some (recipe :: recipes_details) →
  request_user request' = request_user request →
  GET request' !! "format" ≠ Some "csv" →
  let s' := (generate_meal_plan settings api defaults request s).2 in
  (∀ d, eaten_on (request_user request) d (table s') = [])
  ∧ progress_view now request' s'
    = (Ok (render "meals/progress.html"
             (ProgressContext
                {| dates_json := last_7_days now;
                   calories_json := [0; 0; 0; 0; 0; 0; 0];
                   meal_counts_json := [0; 0; 0; 0; 0; 0; 0];
                   total_calories_week := 0;
                   total_meals_week := 0;
                   avg_daily_calories := 0;
                   best_day := (None, 0) |})), s').
Proof.
  intros Hdefault Hw Hd Huser Hformat s'.
  assert (∀ d, eaten_on (request_user request) d (table s') = []) as Hnone.
  { intros d. by eapply eaten_on_generated. }
  split; [done|].
  rewrite progress_view_run, decide_False by done.
  unfold calories_on, meals_on, last_7_days. rewrite Huser.
  cbn [fmap list_fmap]. rewrite !Hnone. reflexivity.
Qed.

Lemma generate_meal_plan_resets_progress_witness :
  let s' := (generate_meal_plan Sample.settings Sample.api Sample.defaults
               (Sample.request "POST" ∅) Sample.db).2 in
  (∀ d, eaten_on 7 d (table s') = [])
  ∧ progress_view 100000 (Sample.request "GET" ∅) s'
    = (Ok (render "meals/progress.html"
             (ProgressContext
                {| dates_json := [-5; -4; -3; -2; -1; 0; 1];
                   calories_json := [0; 0; 0; 0; 0; 0; 0];
                   meal_counts_json := [0; 0; 0; 0; 0; 0; 0];
                   total_calories_week := 0;
                   total_meals_week := 0;
                   avg_daily_calories := 0;
                   best_day := (None, 0) |})), s').
Proof.
  apply (generate_meal_plan_resets_progress Sample.settings Sample.api Sample.defaults
           100000 (Sample.request "POST" ∅) (Sample.request "GET" ∅) Sample.db
           [("mONDAY", {| meals := [ {| stub_id := 10 |}; {| stub_id := 11 |};
                                     {| stub_id := 12 |}; {| stub_id := 11 |} ] |})]
           Sample.soup []);
    [reflexivity | reflexivity | reflexivity | reflexivity | by vm_compute].
Defined.


(** ** Marking a meal and the weekly progress *)

Lemma sum_app (l1 l2 : list Z) : Py.sum (l1 ++ l2) = Py.sum l1 + Py.sum l2.
Proof. induction l1 as [|x l1 IH]; [done|]. cbn [app]. rewrite !sum_cons. lia. Qed.

Lemma after_save_split meal' s meal :
  NoDup (pk <$> table s) → meal ∈ table s → pk meal' = pk meal →
  ∃ l1 l2, table s = l1 ++ meal :: l2 ∧ table (after_save meal' s) = l1 ++ meal' :: l2.
Proof.
  intros Hnd Hin Hpk. apply list_elem_of_split in Hin as (l1 & l2 & Ht).
  exists l1, l2. split; [done|]. cbn [table after_save]. rewrite Ht in Hnd |- *.
  rewrite fmap_app, fmap_cons in Hnd.
  apply NoDup_app in Hnd as (_ & Hl1 & [Hl2 _]%NoDup_cons).
  rewrite fmap_app, fmap_cons, bool_decide_eq_true_2 by done. f_equal; [|f_equal].
  - apply fmap_id_on. intros row Hrow. rewrite bool_decide_eq_false_2; [done|].
    intros Heq. apply (Hl1 (pk row)); [by apply list_elem_of_fmap_2|].
    rewrite Heq, Hpk. left.
  - apply fmap_id_on. intros row Hrow. rewrite bool_decide_eq_false_2; [done|].
    intros Heq. apply Hl2. rewrite <- Hpk, <- Heq. by apply list_elem_of_fmap_2.
Qed.

Lemma calories_on_split u d l1 (meal : MealPlan) l2 :
  calories_on u d (l1 ++ meal :: l2)
  = calories_on u d l1 + calories_on u d [meal] + calories_on u d l2.
Proof.
  unfold calories_on, eaten_on.
  change (meal :: l2) with ([meal] ++ l2).
  rewrite !filter_app, !fmap_app, !sum_app. lia.
Qed.

Lemma meals_on_split u d l1 (meal : MealPlan) l2 :
  meals_on u d (l1 ++ meal :: l2) = meals_on u d l1 + meals_on u d [meal] + meals_on u d l2.
Proof.
  unfold meals_on, eaten_on.
  change (meal :: l2) with ([meal] ++ l2).
  rewrite !filter_app, !length_app. lia.
Qed.

Lemma eaten_on_singleton u d (meal : MealPlan) :
  eaten_on u d [meal]
  = if decide (user meal = u ∧ eaten meal = true ∧ eaten_date meal = Some d)
    then [meal] else [].
Proof. unfold eaten_on. rewrite filter_cons. by case_decide. Qed.

(** X12: what marking a meal does to the weekly progress.  For a stored
    table with distinct primary keys, a POST to [toggle_meal_eaten] for a
    meal of the user that was not marked eaten adds the calories of the
    meal to the total of today's date and 1 to its meal count; for a meal
    that was marked eaten it takes them away from the date of the old
    timestamp.  On every other date the calorie total and the meal count
    of the user are the same as before. *)
Theorem toggle_meal_eaten_counts now request meal_id s meal :
  db_wf s →
  method request = "POST" →
  objects.get meal_id (request_user request) (table s) = Some meal →
  let u := request_user request in
  let s' := (toggle_meal_eaten now request meal_id s).2 in
  ∀ d,
    if eaten meal
    then calories_on u d (table s')
         = calories_on u d (table s)
           - (if decide (eaten_date meal = Some d) then calories meal else 0)
         ∧ meals_on u d (table s')
           = meals_on u d (table s) - (if decide (eaten_date meal = Some d) then 1 else 0)
    else calories_on u d (table s')
         = calories_on u d (table s) + (if decide (d = date_of now) then calories meal else 0)
         ∧ meals_on u d (table s')
           = meals_on u d (table s) + (if decide (d = date_of now) then 1 else 0).
Proof.
  intros [Hnd _] Hpost Hget u s' d. subst s'.
  rewrite toggle_meal_eaten_run, Hpost, Hget. cbn [String.eqb Ascii.eqb Bool.eqb snd].
  change (String.eqb "POST" "POST") with true. cbv iota.
  apply get_Some in Hget as (Hin & _ & Huser).
  destruct (after_save_split (toggled now meal) s meal Hnd Hin eq_refl)
    as (l1 & l2 & -> & ->).
  rewrite !calories_on_split, !meals_on_split.
  unfold calories_on, meals_on. rewrite !eaten_on_singleton.
  unfold eaten_date. cbn [user eaten eaten_at toggled]. fold u in Huser.
  destruct (eaten meal) eqn:Heaten; cbn [negb fmap option_fmap option_map].
  - rewrite (decide_False (P := _ ∧ false = true ∧ _)) by (by intros (_ & ? & _)).
    destruct (decide (date_of <$> eaten_at meal = Some d)) as [Hd|Hd].
    + rewrite decide_True by done. cbn [fmap list_fmap length]. rewrite sum_cons.
      change (Py.sum []) with 0.
      generalize (Py.sum (calories <$> eaten_on u d l1)), (Py.sum (calories <$> eaten_on u d l2)),
        (length (eaten_on u d l1)), (length (eaten_on u d l2)). lia.
    + rewrite decide_False by (by intros (_ & _ & ?)).
      cbn [fmap list_fmap length]. change (Py.sum []) with 0.
      generalize (Py.sum (calories <$> eaten_on u d l1)), (Py.sum (calories <$> eaten_on u d l2)),
        (length (eaten_on u d l1)), (length (eaten_on u d l2)). lia.
  - rewrite (decide_False (P := _ ∧ false = true ∧ _)) by (by intros (_ & ? & _)).
    destruct (decide (d = date_of now)) as [Heq | Hd].
    + rewrite decide_True by (by rewrite Heq). cbn [fmap list_fmap length]. rewrite sum_cons.
      change (Py.sum []) with 0. change (calories (toggled now meal)) with (calories meal).
      generalize (Py.sum (calories <$> eaten_on u d l1)), (Py.sum (calories <$> eaten_on u d l2)),
        (length (eaten_on u d l1)), (length (eaten_on u d l2)). lia.
    + rewrite decide_False by (intros (_ & _ & [= ?]); congruence).
      cbn [fmap list_fmap length]. change (Py.sum []) with 0.
      generalize (Py.sum (calories <$> eaten_on u d l1)), (Py.sum (calories <$> eaten_on u d l2)),
        (length (eaten_on u d l1)), (length (eaten_on u d l2)). lia.
Qed.

Lemma toggle_meal_eaten_counts_witness :
  let s' := (toggle_meal_eaten 100000 (Sample.request "POST" ∅) 1 Sample.db).2 in
  (calories_on 7 1 (table s') = calories_on 7 1 (table Sample.db) + 400
   ∧ meals_on 7 1 (table s') = meals_on 7 1 (table Sample.db) + 1)
  ∧ (calories_on 7 0 (table s') = calories_on 7 0 (table Sample.db) + 0
     ∧ meals_on 7 0 (table s') = meals_on 7 0 (table Sample.db) + 0).
Proof.
  split.
  - exact (toggle_meal_eaten_counts 100000 (Sample.request "POST" ∅) 1 Sample.db
             (Sample.row 1 7 None 400) db_wf_sample eq_refl eq_refl 1).
  - exact (toggle_meal_eaten_counts 100000 (Sample.request "POST" ∅) 1 Sample.db
             (Sample.row 1 7 None 400) db_wf_sample eq_refl eq_refl 0).
Defined.

(** ** The weekly totals *)

Lemma sum_fmap_add {A} (f g : A → Z) (l : list A) :
  Py.sum ((λ x, f x + g x) <$> l) = Py.sum (f <$> l) + Py.sum (g <$> l).
Proof.
  induction l as [|x l IH]; [done|]. rewrite !fmap_cons, !sum_cons, IH. lia.
Qed.

Lemma sum_ones {A} (l : list A) : Py.sum ((λ _, 1) <$> l) = Z.of_nat (length l).
Proof.
  induction l as [|x l IH]; [done|]. rewrite fmap_cons, sum_cons, IH, length_cons. lia.
Qed.

Lemma sum_one_date (e : option date) (c : Z) (dates : list date) :
  NoDup dates →
  Py.sum ((λ d, if decide (e = Some d) then c else 0) <$> dates)
  = if decide (Exists (λ d, e = Some d) dates) then c else 0.
Proof.
  induction 1 as [|d dates Hd _ IH].
  - rewrite decide_False; [done|]. by intros ?%Exists_nil.
  - rewrite fmap_cons, sum_cons, IH.
    destruct (decide (e = Some d)) as [->|Hne].
    + rewrite decide_False.
      * rewrite decide_True; [lia|]. by left.
      * intros (d' & Hd' & [= <-])%Exists_exists. done.
    + destruct (decide (Exists (λ d0, e = Some d0) dates)) as [Hsome|Hnone].
      * rewrite decide_True; [lia|]. by right.
      * rewrite decide_False; [lia|]. by intros [?|?]%Exists_cons.
Qed.

Lemma week_member now d : d ∈ last_7_days now ↔ date_of now - 6 ≤ d ≤ date_of now.
Proof. unfold last_7_days. rewrite !elem_of_cons, elem_of_nil. lia. Qed.

Lemma weekly_total (w : MealPlan → Z) u now (t : list MealPlan) :
  Py.sum ((λ d, Py.sum (w <$> eaten_on u d t)) <$> last_7_days now)
  = Py.sum (w <$> eaten_this_week u now t).
Proof.
  induction t as [|meal t IH].
  - change (Py.sum (w <$> eaten_this_week u now [])) with 0.
    unfold last_7_days. reflexivity.
  - assert (∀ d, Py.sum (w <$> eaten_on u d (meal :: t))
                 = (if decide (eaten_date meal = Some d)
                    then (if decide (user meal = u ∧ eaten meal = true) then w meal else 0)
                    else 0)
                   + Py.sum (w <$> eaten_on u d t)) as Hstep.
    { intros d. unfold eaten_on. rewrite filter_cons.
      destruct (decide (eaten_date meal = Some d)) as [Hd|Hd].
      - destruct (decide (user meal = u ∧ eaten meal = true)) as [[? ?]|Hno].
        + rewrite decide_True by done. by rewrite fmap_cons, sum_cons.
        + rewrite decide_False by tauto. lia.
      - rewrite decide_False by tauto. lia. }
    rewrite (list_fmap_ext _ _ _ (λ _ d _, Hstep d)).
    rewrite (sum_fmap_add
               (λ d, if decide (eaten_date meal = Some d)
                     then (if decide (user meal = u ∧ eaten meal = true) then w meal else 0)
                     else 0)
               (λ d, Py.sum (w <$> eaten_on u d t))).
    rewrite IH, sum_one_date by apply NoDup_last_7_days.
    unfold eaten_this_week. rewrite filter_cons.
    destruct (decide (Exists (λ d, eaten_date meal = Some d) (last_7_days now)))
      as [(d & Hd%week_member & He)%Exists_exists|Hnone].
    + assert (in_week now meal) as Hin by (unfold in_week; by rewrite He).
      destruct (decide (user meal = u ∧ eaten meal = true)) as [[? ?]|Hno].
      * rewrite decide_True by done. by rewrite fmap_cons, sum_cons.
      * rewrite decide_False by tauto. lia.
    + rewrite decide_False; [lia|]. intros (_ & _ & Hin). unfold in_week in Hin.
      destruct (eaten_date meal) as [d|]; [|done].
      destruct Hnone. apply Exists_exists. exists d. by rewrite week_member.
Qed.

(** X13: the weekly totals of [progress_view] count every eaten meal of
    the week once.  The calorie total of the week is the sum of the
    calories of the meals of the user that are marked eaten with a
    timestamp on one of the seven dates that end today, and the meal total
    is their number; a meal eaten earlier, a meal with a later timestamp
    and a meal of another user add nothing. *)
Theorem progress_view_weekly_totals now request s :
  GET request !! "format" ≠ Some "csv" →
  let u := request_user request in
  ∃ c,
    progress_view now request s = (Ok (render "meals/progress.html" (ProgressContext c)), s)
    ∧ total_calories_week c = Py.sum (calories <$> eaten_this_week u now (table s))
    ∧ total_meals_week c = Z.of_nat (length (eaten_this_week u now (table s))).
Proof.
  intros Hformat u. rewrite progress_view_run, decide_False by done. fold u.
  eexists. split; [reflexivity|]. cbn [total_calories_week total_meals_week]. split.
  - unfold calories_on. apply weekly_total.
  - rewrite <- sum_ones, <- (weekly_total (λ _, 1)).
    f_equal. apply list_fmap_ext. intros _ d _. unfold meals_on.
    by rewrite sum_ones.
Qed.

Lemma progress_view_weekly_totals_witness :
  ∃ c,
    progress_view 100000 (Sample.request "GET" ∅) Sample.db
    = (Ok (render "meals/progress.html" (ProgressContext c)), Sample.db)
    ∧ total_calories_week c = 700
    ∧ total_meals_week c = 1.
Proof.
  apply (progress_view_weekly_totals 100000 (Sample.request "GET" ∅) Sample.db).
  by vm_compute.
Defined.

(** ** Saving a meal and the plan page *)

Lemma filter_fmap_members {A} (P : A → Prop) `{∀ x, Decision (P x)} (f : A → A) (l : list A) :
  (∀ x, x ∈ l → P (f x) ↔ P x) → filter P (f <$> l) = f <$> filter P l.
Proof.
  intros Hf. induction l as [|x l IH]; [done|].
  rewrite fmap_cons, !filter_cons, IH by (intros y Hy; apply Hf; by right).
  destruct (decide (P x)) as [Hx|Hx].
  - rewrite decide_True; [done|]. apply Hf; [left|done].
  - rewrite decide_False; [done|]. rewrite Hf; [done|left].
Qed.

Lemma StronglySorted_fmap_pk (f : MealPlan → MealPlan) (l : list MealPlan) :
  (∀ row, row ∈ l → pk (f row) = pk row) →
  StronglySorted pk_le l → StronglySorted pk_le (f <$> l).
Proof.
  intros Hf. induction 1 as [|x l _ IH Hx]; [constructor|].
  rewrite fmap_cons. constructor.
  - apply IH. intros row Hrow. apply Hf. by right.
  - apply Forall_fmap, Forall_forall. intros y Hy.
    rewrite Forall_forall in Hx. unfold pk_le, compose.
    rewrite !Hf by (by left || by right). by apply Hx.
Qed.

Lemma fmap_pk_members (f : MealPlan → MealPlan) (l : list MealPlan) :
  (∀ row, row ∈ l → pk (f row) = pk row) → pk <$> (f <$> l) = pk <$> l.
Proof.
  intros Hf. rewrite <- list_fmap_compose. apply list_fmap_ext.
  intros i row Hrow. apply Hf. by eapply list_elem_of_lookup_2.
Qed.

Lemma order_by_pk_fmap (f : MealPlan → MealPlan) (l : list MealPlan) :
  NoDup (pk <$> l) → (∀ row, row ∈ l → pk (f row) = pk row) →
  order_by_pk (f <$> l) = f <$> order_by_pk l.
Proof.
  intros Hnd Hf. symmetry. unfold order_by_pk.
  assert (∀ row, row ∈ merge_sort pk_le l → pk (f row) = pk row) as Hf'.
  { intros row Hrow. apply Hf. by rewrite merge_sort_Permutation in Hrow. }
  apply sorted_by_pk_unique.
  - rewrite fmap_pk_members by done. by rewrite merge_sort_Permutation.
  - apply StronglySorted_fmap_pk; [done|]. apply StronglySorted_merge_sort; apply _.
  - apply StronglySorted_merge_sort; apply _.
  - by rewrite !merge_sort_Permutation.
Qed.

Lemma plan_page_fmap u (f : MealPlan → MealPlan) (t : list MealPlan) :
  NoDup (pk <$> t) →
  (∀ row, row ∈ t → pk (f row) = pk row ∧ user (f row) = user row ∧ day (f row) = day row) →
  plan_page u (f <$> t) = (λ dl : string * list MealPlan, (dl.1, f <$> dl.2)) <$> plan_page u t.
Proof.
  intros Hnd Hf. unfold plan_page. rewrite <- list_fmap_compose.
  apply list_fmap_ext. intros _ d _. unfold compose. cbn [fst snd]. f_equal.
  unfold objects.filter_user.
  rewrite filter_fmap_members by (intros row Hrow; by destruct (Hf row Hrow) as (_ & -> & _)).
  rewrite order_by_pk_fmap.
  - apply filter_fmap_members. intros row Hrow.
    unfold order_by_pk in Hrow. rewrite merge_sort_Permutation in Hrow.
    apply list_elem_of_filter in Hrow as [_ Hrow].
    by destruct (Hf row Hrow) as (_ & _ & ->).
  - by apply NoDup_pk_sublist.
  - intros row [_ Hrow]%list_elem_of_filter. by destruct (Hf row Hrow) as (-> & _).
Qed.

Lemma saved_in_place meal' s original :
  NoDup (pk <$> table s) → original ∈ table s →
  pk meal' = pk original → user meal' = user original → day meal' = day original →
  meal_type meal' = meal_type original →
  ∀ row, row ∈ table s →
    let row' := if bool_decide (pk row = pk meal') then meal' else row in
    pk row' = pk row ∧ user row' = user row ∧ day row' = day row
    ∧ meal_type row' = meal_type row.
Proof.
  intros Hnd Hin Hpk Huser Hday Htype row Hrow. cbv zeta.
  case_bool_decide as Hsame; [|done].
  assert (row = original) as -> by (eapply pk_injective; [done..|congruence]).
  done.
Qed.

(** X14: swapping or marking a meal leaves it where it is on the plan
    page.  For a stored table with distinct primary keys, a call of
    [replace_meal] or [toggle_meal_eaten] for the key [meal_id] changes the
    table by a map that fixes every row with another key and keeps the
    primary key, the user, the day and the slot of every stored row; the
    lists of the plan page of the user afterwards are the lists before
    with that map applied, so no meal moves, appears or disappears.  This
    includes the runs that fail, where the map is the identity. *)
Theorem saved_meal_keeps_its_place settings api defaults now v request meal_id s :
  v = ReplaceMeal meal_id ∨ v = ToggleMealEaten meal_id →
  db_wf s →
  let u := request_user request in
  let s' := (call settings api defaults now v request s).2 in
  ∃ f : MealPlan → MealPlan,
    (∀ row, pk row ≠ meal_id → f row = row)
    ∧ (∀ row, row ∈ table s →
         pk (f row) = pk row ∧ user (f row) = user row ∧ day (f row) = day row
         ∧ meal_type (f row) = meal_type row)
    ∧ table s' = f <$> table s
    ∧ plan_page u (table s') = (λ dl : string * list MealPlan, (dl.1, f <$> dl.2)) <$> plan_page u (table s).
Proof.
  intros Hv [Hnd _] u s'.
  assert (s' = s
          ∨ ∃ original meal',
              objects.get meal_id u (table s) = Some original
              ∧ pk meal' = pk original ∧ user meal' = user original
              ∧ day meal' = day original ∧ meal_type meal' = meal_type original
              ∧ s' = after_save meal' s) as [-> | Hsaved].
  { subst s'. destruct Hv as [-> | ->]; cbn [call].
    - rewrite replace_meal_run. destruct (String.eqb _ _); [|by left].
      fold u. destruct (objects.get meal_id u (table s)) as [original|] eqn:Hget; [|by left].
      destruct (replacement_for _ _ _) as [data|]; [|by left].
      destruct (_ || _); [|by left].
      destruct (results_or_recipes data) as [[|new_recipe ?]|]; [by left| |by left].
      right. by exists original, (swapped original new_recipe).
    - rewrite toggle_meal_eaten_run. destruct (String.eqb _ _); [|by left].
      fold u. destruct (objects.get meal_id u (table s)) as [original|] eqn:Hget; [|by left].
      right. by exists original, (toggled now original). }
  - exists id. split; [done|]. split; [done|]. rewrite list_fmap_id. split; [done|].
    symmetry. rewrite <- (list_fmap_id (plan_page u (table s))) at 2.
    apply list_fmap_ext. intros _ [d l] _. cbn [fst snd]. by rewrite list_fmap_id.
  - destruct Hsaved as (original & meal' & Hget & Hpk & Huser & Hday & Htype & ->).
    apply get_Some in Hget as (Hin & Hid & _).
    exists (λ row, if bool_decide (pk row = pk meal') then meal' else row).
    split; [|split; [|split]].
    + intros row Hrow. rewrite bool_decide_eq_false_2; [done|]. congruence.
    + intros row Hrow. by apply (saved_in_place meal' s original).
    + done.
    + cbn [table after_save]. apply plan_page_fmap; [done|].
      intros row Hrow.
      destruct (saved_in_place meal' s original Hnd Hin Hpk Huser Hday Htype row Hrow)
        as (? & ? & ? & _).
      done.
Qed.

Lemma saved_meal_keeps_its_place_witness :
  let s' := (call Sample.settings Sample.api_search Sample.defaults 100000 (ReplaceMeal 1)
               (Sample.request "POST" ∅) Sample.db).2 in
  ∃ f : MealPlan → MealPlan,
    (∀ row, pk row ≠ 1 → f row = row)
    ∧ (∀ row, row ∈ table Sample.db →
         pk (f row) = pk row ∧ user (f row) = user row ∧ day (f row) = day row
         ∧ meal_type (f row) = meal_type row)
    ∧ table s' = f <$> table Sample.db
    ∧ plan_page 7 (table s') = (λ dl : string * list MealPlan, (dl.1, f <$> dl.2)) <$> plan_page 7 (table Sample.db).
Proof.
  apply (saved_meal_keeps_its_place Sample.settings Sample.api_search Sample.defaults 100000
           (ReplaceMeal 1) (Sample.request "POST" ∅) 1 Sample.db);
    [by left | apply db_wf_sample].
Defined.

(** ** Where the replacement comes from *)

(** X15: where [replace_meal] takes the replacement from.  For a POST that
    finds the meal: when the search near the calories of the meal answers
    with a non-empty [results] list, its first recipe replaces the meal and
    the answer of the random endpoint plays no part.  Otherwise the answer
    of the random endpoint decides: a failed request gives the failure
    payload; a [results] list in it is used before [recipes], and when that
    list is empty while [recipes] is not, the view raises [IndexError];
    without [results] the first of [recipes] replaces the meal; with
    nothing to choose from the failure payload is returned.  The table
    changes only when a recipe replaces the meal. *)
Theorem replace_meal_source settings api request meal_id s original :
  method request = "POST" →
  objects.get meal_id (request_user request) (table s) = Some original →
  let out := replace_meal settings api request meal_id s in
  let failure := (Ok (failure_json no_replacement), s) in
  match hits_of (search_answer settings api original) with
  | new_recipe :: _ => out = swap_done original new_recipe s
  | [] =>
      match random_answer settings api with
      | RequestException _ => out = failure
      | HttpJson data =>
          match results data, recipes data with
          | Some (new_recipe :: _), _ => out = swap_done original new_recipe s
          | Some [], Some (_ :: _) => out = (Raise IndexError, s)
          | Some [], _ => out = failure
          | None, Some (new_recipe :: _) => out = swap_done original new_recipe s
          | None, _ => out = failure
          end
      end
  end.
Proof.
  intros Hpost Hget out failure. subst out failure.
  rewrite replace_meal_run, Hpost, Hget.
  change (String.eqb "POST" "POST") with true. cbv iota.
  unfold replacement_for, fetch, _fetch_from_spoonacular.
  change (Py.setitem "apiKey" (PStr (SPOONACULAR_API_KEY settings))
            [("number", PNum (Py.PyInt 1));
             ("targetCalories", PNum (Py.PyInt (calories original)));
             ("addRecipeNutrition", PStr "true")])
    with [("number", PNum (Py.PyInt 1));
          ("targetCalories", PNum (Py.PyInt (calories original)));
          ("addRecipeNutrition", PStr "true");
          ("apiKey", PStr (SPOONACULAR_API_KEY settings))].
  change (Py.setitem "apiKey" (PStr (SPOONACULAR_API_KEY settings))
            [("number", PNum (Py.PyInt 1)); ("addRecipeNutrition", PStr "true")])
    with [("number", PNum (Py.PyInt 1)); ("addRecipeNutrition", PStr "true");
          ("apiKey", PStr (SPOONACULAR_API_KEY settings))].
  fold (search_answer settings api original). fold (random_answer settings api).
  assert (∀ answer : http_result search_payload,
            hits_of answer = [] ∨ ∃ new_recipe rest other,
              answer = HttpJson {| results := Some (new_recipe :: rest); recipes := other |})
    as Hcases.
  { intros [[[[|new_recipe rest]|] other]|why]; eauto 6. }
  destruct (Hcases (search_answer settings api original))
    as [Hnone | (new_recipe & rest & other & ->)].
  - rewrite Hnone.
    assert (negb (Py.truthy
                    (match search_answer settings api original with
                     | HttpJson payload => Some payload
                     | RequestException _ => None
                     end ≫= results)) = true) as ->.
    { by destruct (search_answer settings api original) as [[[[|? ?]|] ?]|?]. }
    by destruct (random_answer settings api)
      as [[[[|new_recipe rest]|] [[|other others]|]]|why].
  - reflexivity.
Qed.

Lemma replace_meal_source_witness :
  replace_meal Sample.settings Sample.api_search (Sample.request "POST" ∅) 1 Sample.db
  = swap_done (Sample.row 1 7 None 400) Sample.paneer Sample.db.
Proof.
  apply (replace_meal_source Sample.settings Sample.api_search (Sample.request "POST" ∅) 1
           Sample.db (Sample.row 1 7 None 400) eq_refl eq_refl).
Defined.

(** ** Health issues and letter case *)

Lemma lowered_issues (profile : Profile) :
  match health_issues profile with
  | Some (String _ _ as text) => Py.lower text
  | _ => ""
  end = lowered_issues_of profile.
Proof. unfold lowered_issues_of. by destruct (health_issues profile) as [[|c text]|]. Qed.

Lemma api_params_for_lowered (profile : Profile) :
  api_params_for profile
  = let tdee := calculate_tdee profile in
    let calorie_target :=
      if String.eqb (goal profile) "lose" then Py.sub tdee 500
      else if String.eqb (goal profile) "gain" then Py.add tdee 500
      else tdee in
    let api_params := [("timeFrame", PStr "week"); ("targetCalories", PNum calorie_target)] in
    let issues := lowered_issues_of profile in
    if Py.contains "gluten" issues then Py.setitem "diet" (PStr "Gluten Free") api_params
    else if Py.contains "vegetarian" issues then Py.setitem "diet" (PStr "Vegetarian") api_params
    else if Py.contains "vegan" issues then Py.setitem "diet" (PStr "Vegan") api_params
    else api_params.
Proof.
  unfold api_params_for, lowered_issues_of.
  by destruct (health_issues profile) as [[|c text]|].
Qed.

(** X16: the health issues of the profile count regardless of letter
    case.  Two requests of the same user whose profiles have the same
    goal, the same energy expenditure and health issues that are equal
    once lower-cased (no text and the empty text being alike) get the same
    answer and the same stored state from [generate_meal_plan] and from
    [discover_meals], whatever the service is. *)
Theorem health_issues_ignore_case settings api defaults request request' s :
  request_user request' = request_user request →
  goal (request_profile request') = goal (request_profile request) →
  calculate_tdee (request_profile request') = calculate_tdee (request_profile request) →
  lowered_issues_of (request_profile request') = lowered_issues_of (request_profile request) →
  generate_meal_plan settings api defaults request' s
  = generate_meal_plan settings api defaults request s
  ∧ discover_meals settings api request' s = discover_meals settings api request s.
Proof.
  intros Huser Hgoal Htdee Hissues. split.
  - unfold generate_meal_plan, plan_data_for.
    rewrite !api_params_for_lowered. cbv zeta.
    by rewrite Huser, Hgoal, Htdee, Hissues.
  - unfold discover_meals. cbv zeta. by rewrite !lowered_issues, Hissues.
Qed.

Lemma health_issues_ignore_case_witness :
  generate_meal_plan Sample.settings Sample.api Sample.defaults Demo.shouting Sample.db
  = generate_meal_plan Sample.settings Sample.api Sample.defaults (Sample.request "GET" ∅)
      Sample.db
  ∧ discover_meals Sample.settings Sample.api Demo.shouting Sample.db
    = discover_meals Sample.settings Sample.api (Sample.request "GET" ∅) Sample.db.
Proof.
  apply (health_issues_ignore_case Sample.settings Sample.api Sample.defaults
           (Sample.request "GET" ∅) Demo.shouting Sample.db); reflexivity.
Defined.
